(** * arc_export: reconstruction of a bookmark tree from a flat sidebar dump

    A shallow embedding of [arc_export.py] and the properties of its
    structural locator, node table builder and tree reconstructor.

    Conventions of the embedding.
    - A Python [str] is a [string]; every [ascii] stands for the code point
      of the same number (code points below 256).
    - A JSON document as [json.load] returns it is a [json]; a [dict] is an
      association list in insertion order, read with [dict_get] (first
      binding of the key; the dicts of [json.load] have no repeated key).
    - Python sets that are only tested, extended and shrunk are [gset]s.
    - A call that can raise returns a [res]; [OutOfFuel] is the only
      outcome that does not exist in Python, and is proved unreachable. *)

From Stdlib Require Import ZArith String Ascii List SpecFloat.
From stdpp Require Import base option list gmap strings sorting pretty.

Local Open Scope string_scope.
Local Open Scope list_scope.
#[local] Set Warnings "-clear-no-such-hyp,-level-tolerance".

(** ** Strings *)

Module PyStr.

(** [str.isspace] on one character. *)
Definition is_space (c : ascii) : bool :=
  let n := N_of_ascii c in
  ((9 <=? n) && (n <=? 13) || (28 <=? n) && (n <=? 32)
   || (n =? 133) || (n =? 160))%N.

Fixpoint lstrip (s : string) : string :=
  match s with
  | EmptyString => EmptyString
  | String c s' => if is_space c then lstrip s' else s
  end.

Fixpoint rstrip (s : string) : string :=
  match s with
  | EmptyString => EmptyString
  | String c s' =>
      match rstrip s' with
      | EmptyString => if is_space c then EmptyString else String c EmptyString
      | r => String c r
      end
  end.

(** [s.strip()] *)
Definition strip (s : string) : string := rstrip (lstrip s).

(** [bool(s)] for a string. *)
Definition nonempty (s : string) : bool :=
  match s with EmptyString => false | _ => true end.

(** [str.lower] on one character. *)
Definition lower_char (c : ascii) : ascii :=
  let n := N_of_ascii c in
  if ((65 <=? n) && (n <=? 90)
      || (192 <=? n) && (n <=? 222) && negb (n =? 215))%N
  then ascii_of_N (n + 32) else c.

Fixpoint lower (s : string) : string :=
  match s with
  | EmptyString => EmptyString
  | String c s' => String (lower_char c) (lower s')
  end.

Fixpoint starts_with (p s : string) : bool :=
  match p, s with
  | EmptyString, _ => true
  | String a p', String b s' => if Ascii.eqb a b then starts_with p' s' else false
  | String _ _, EmptyString => false
  end.

(** [p in s] for strings. *)
Fixpoint contains (p s : string) : bool :=
  starts_with p s ||
  match s with
  | EmptyString => false
  | String _ s' => contains p s'
  end.

Definition first_char (s : string) : option ascii :=
  match s with EmptyString => None | String c _ => Some c end.

Fixpoint last_char (s : string) : option ascii :=
  match s with
  | EmptyString => None
  | String c EmptyString => Some c
  | String _ s' => last_char s'
  end.

(** No whitespace at either end. *)
Definition trimmed (s : string) : Prop :=
  (forall c, first_char s = Some c -> is_space c = false) /\
  (forall c, last_char s = Some c -> is_space c = false).

End PyStr.

(** ** JSON values and dicts *)

Local Unset Elimination Schemes.

Inductive json : Type :=
| JNull
| JBool (b : bool)
| JInt (z : Z)
| JFloat (f : spec_float)
| JStr (s : string)
| JArr (l : list json)
| JObj (d : list (string * json)).

Local Set Elimination Schemes.

Abbreviation dict V := (list (string * V)).

Fixpoint dict_get {V} (k : string) (d : dict V) : option V :=
  match d with
  | [] => None
  | (k', v) :: d' => if String.eqb k k' then Some v else dict_get k d'
  end.

(** [k in d] *)
Definition dict_mem {V} (k : string) (d : dict V) : bool :=
  match dict_get k d with Some _ => true | None => false end.

(** [d[k] = v]: an existing key keeps its place. *)
Fixpoint dict_set {V} (k : string) (v : V) (d : dict V) : dict V :=
  match d with
  | [] => [(k, v)]
  | (k', v') :: d' =>
      if String.eqb k k' then (k', v) :: d' else (k', v') :: dict_set k v d'
  end.

(** [d.setdefault(k, []).append(x)] *)
Fixpoint dict_append {A} (k : string) (x : A) (d : dict (list A)) : dict (list A) :=
  match d with
  | [] => [(k, [x])]
  | (k', l) :: d' =>
      if String.eqb k k' then (k', l ++ [x]) :: d' else (k', l) :: dict_append k x d'
  end.

Definition dict_keys {V} (d : dict V) : list string := map fst d.
Definition dict_values {V} (d : dict V) : list V := map snd d.

(** [d.get(k)] on a JSON mapping: [None] is [JNull]. *)
Definition py_get (k : string) (d : dict json) : json :=
  match dict_get k d with Some v => v | None => JNull end.

(** [bool(v)] *)
Definition truthy (v : json) : bool :=
  match v with
  | JNull => false
  | JBool b => b
  | JInt z => negb (z =? 0)%Z
  | JFloat f => match f with S754_zero _ => false | _ => true end
  | JStr s => PyStr.nonempty s
  | JArr l => match l with [] => false | _ => true end
  | JObj d => match d with [] => false | _ => true end
  end.

(** [a or b] *)
Definition py_or (a b : json) : json := if truthy a then a else b.

(** The first result of [f] over [l], as the [for ... return] loops do. *)
Fixpoint first_some {A B} (f : A -> option B) (l : list A) : option B :=
  match l with
  | [] => None
  | x :: l' => match f x with Some r => Some r | None => first_some f l' end
  end.

(** ** Structural locator *)

Fixpoint find_list_for_key (obj : json) (key : string) : option (list json) :=
  match obj with
  | JObj d =>
      match dict_get key d with
      | Some (JArr l) => Some l
      | _ => first_some (fun kv => find_list_for_key (snd kv) key) d
      end
  | JArr l => first_some (fun v => find_list_for_key v key) l
  | _ => None
  end.

Fixpoint find_containers_anywhere (obj : json) : option (list json) :=
  match obj with
  | JObj d =>
      match py_get "containers" d with
      | JArr l => Some l
      | _ => first_some (fun kv => find_containers_anywhere (snd kv)) d
      end
  | JArr l => first_some find_containers_anywhere l
  | _ => None
  end.

Definition extract_containers (data : dict json) : list json :=
  let root := match dict_get "root" data with Some r => r | None => JObj data end in
  let exact :=
    match root with
    | JObj r =>
        match py_get "sidebar" r with
        | JObj sb => match py_get "containers" sb with JArr l => Some l | _ => None end
        | _ => None
        end
    | _ => None
    end in
  match exact with
  | Some l => l
  | None =>
      match find_containers_anywhere root with
      | None => []
      | Some l => l
      end
  end.

Fixpoint enumerate_from {A} (n : nat) (l : list A) : list (nat * A) :=
  match l with
  | [] => []
  | x :: l' => (n, x) :: enumerate_from (S n) l'
  end.

(** [enumerate(l)] *)
Definition enumerate {A} (l : list A) : list (nat * A) := enumerate_from 0 l.

(** [if items:] for the result of [find_list_for_key]. *)
Definition nonempty_list (o : option (list json)) : bool :=
  match o with Some (_ :: _) => true | _ => false end.

Definition select_containers (containers : list json) (all_containers : bool)
  : list (nat * json) :=
  match containers with
  | [] => []
  | c0 :: _ =>
      if all_containers then enumerate containers
      else
        let second :=
          match containers with
          | _ :: (JObj _ as c1) :: _ =>
              if nonempty_list (find_list_for_key c1 "items") then Some [(1%nat, c1)]
              else None
          | _ => None
          end in
        match second with
        | Some r => r
        | None =>
            match first_some
                    (fun ic => if nonempty_list (find_list_for_key (snd ic) "items")
                               then Some [ic] else None)
                    (enumerate containers) with
            | Some r => r
            | None => [(0%nat, c0)]
            end
        end
  end.

(** ** The forest and the node table *)

Local Unset Elimination Schemes.

Inductive tree : Type :=
| Bookmark (title url : string)
| Folder (title : string) (children : list tree).

Local Set Elimination Schemes.

(** [parent_id] is declared [Optional[str]], but [parse_container] stores
    whatever JSON value the item carries, so it is a [json] here
    ([JNull] for [None]). *)
Record ArcNode : Type := mkArcNode {
  node_id : string;
  parent_id : json;
  title : option string;
  data : dict json;
  order : Z
}.

Record ExportStats : Type := mkExportStats {
  containers_total : nat;
  containers_selected : nat;
  spaces_detected : nat;
  spaces_included : nat;
  folders : nat;
  tabs : nat
}.

Definition json_of_title (t : option string) : json :=
  match t with Some s => JStr s | None => JNull end.

(** ** Classification *)

Definition is_folder_like (node : ArcNode) : bool :=
  existsb (fun key => dict_mem key (data node)) ["list"; "tabGroup"; "itemContainer"].

(** [isinstance(c, str) and c.strip()] *)
Definition nonblank_str (c : json) : option string :=
  match c with
  | JStr s => if PyStr.nonempty (PyStr.strip s) then Some (PyStr.strip s) else None
  | _ => None
  end.

Definition get_node_title (node : ArcNode) (default : string) : string :=
  let candidates :=
    [json_of_title (title node); py_get "title" (data node); py_get "name" (data node)] in
  match first_some nonblank_str candidates with
  | Some t => t
  | None => default
  end.

Definition get_tab_info (node : ArcNode) : option tree :=
  match py_get "tab" (data node) with
  | JObj tab =>
      let url := py_or (py_or (py_get "savedURL" tab) (py_get "url" tab)) (py_get "URL" tab) in
      match url with
      | JStr u =>
          if PyStr.nonempty (PyStr.strip u) then
            let t := py_or (py_or (py_get "savedTitle" tab) (py_get "title" tab))
                           (json_of_title (title node)) in
            let t' :=
              match t with
              | JStr ts => if PyStr.nonempty (PyStr.strip ts) then ts else u
              | _ => u
              end in
            Some (Bookmark (PyStr.strip t') (PyStr.strip u))
          else None
      | _ => None
      end
  | _ => None
  end.

(** ** Spaces *)

Definition pin_keys : list string := ["isPinned"; "pinned"; "isPinnedSpace"; "is_pinned"].

Definition as_bool (v : json) : option bool :=
  match v with JBool b => Some b | _ => None end.

Definition space_is_pinned (space : dict json) : option bool :=
  match first_some (fun key => as_bool (py_get key space)) pin_keys with
  | Some b => Some b
  | None =>
      match py_get "data" space with
      | JObj d => first_some (fun key => as_bool (py_get key d)) pin_keys
      | _ => None
      end
  end.

Definition as_str (v : json) : option string :=
  match v with JStr s => Some s | _ => None end.

(** The ids a value contributes: itself when a string, its string
    members when a list. *)
Definition ids_of_value (v : json) : list string :=
  match v with
  | JStr s => [s]
  | JArr l => omap as_str l
  | _ => []
  end.

Fixpoint gather_ids_by_key (obj : json) (match_key : string -> bool) : list string :=
  match obj with
  | JObj d =>
      flat_map (fun kv =>
        (if match_key (fst kv) then ids_of_value (snd kv) else []) ++
        match snd kv with
        | JObj _ | JArr _ => gather_ids_by_key (snd kv) match_key
        | _ => []
        end) d
  | JArr l => flat_map (fun v => gather_ids_by_key v match_key) l
  | _ => []
  end.

Definition direct_keys : list string :=
  ["itemContainerId"; "itemContainerID"; "itemContainerIds"; "itemContainerIDs";
   "rootItemContainerId"; "rootItemContainerID"; "rootItemId"; "rootItemID";
   "rootItemIds"; "rootItemIDs"; "rootId"; "rootID"; "rootIds"; "rootIDs"].

Definition key_matcher (key : string) : bool :=
  let key_lower := PyStr.lower key in
  PyStr.contains "itemcontainer" key_lower ||
  existsb (String.eqb key_lower) ["rootid"; "rootids"; "rootitemid"; "rootitemids"].

Definition direct_ids (d : dict json) : list string :=
  flat_map (fun key => ids_of_value (py_get key d)) direct_keys.

(** The set [candidate_ids] at the end of the three collection steps. *)
Definition candidate_ids (space : dict json) : gset string :=
  list_to_set (direct_ids space)
  ∪ match py_get "data" space with
    | JObj d => list_to_set (direct_ids d)
    | _ => ∅
    end
  ∪ list_to_set (gather_ids_by_key (JObj space) key_matcher).

(** [sorted(l, key=key)]: the stable sort. *)
Fixpoint insert_by {A} (key : A -> Z) (x : A) (l : list A) : list A :=
  match l with
  | [] => [x]
  | y :: l' => if (key x <=? key y)%Z then x :: y :: l' else y :: insert_by key x l'
  end.

Fixpoint sorted_by {A} (key : A -> Z) (l : list A) : list A :=
  match l with
  | [] => []
  | x :: l' => insert_by key x (sorted_by key l')
  end.

(** [nodes[node_id].order], read only at ids of the table. *)
Definition order_of (nodes : dict ArcNode) (id : string) : Z :=
  match dict_get id nodes with Some n => order n | None => 0%Z end.

(** ** Outcomes of calls that can raise *)

Inductive exn : Type := TypeError | KeyError | AttributeError.

Inductive res (A : Type) : Type :=
| Ret (a : A)
| Raise (e : exn)
| OutOfFuel.

Arguments Ret {A} a.
Arguments Raise {A} e.
Arguments OutOfFuel {A}.

Global Instance res_ret : MRet res := fun A a => Ret a.
Global Instance res_bind : MBind res := fun A B f m =>
  match m with
  | Ret a => f a
  | Raise e => Raise e
  | OutOfFuel => OutOfFuel
  end.

(** [s.remove(x)] raises [KeyError] when [x] is not a member. *)
Definition set_remove (x : string) (s : gset string) : res (gset string) :=
  if decide (x ∈ s) then Ret (s ∖ {[x]}) else Raise KeyError.

(** ** Tree reconstructor *)

(** The body shared by the two child loops: skip an absent child and a
    Bookmark whose [(title, url)] is in [seen_tabs], append the rest. *)
Definition add_child (child : option tree) (st : list tree * gset (string * string))
  : list tree * gset (string * string) :=
  match child with
  | None => st
  | Some (Bookmark t u) =>
      if decide ((t, u) ∈ st.2) then st
      else (st.1 ++ [Bookmark t u], {[(t, u)]} ∪ st.2)
  | Some (Folder t c) => (st.1 ++ [Folder t c], st.2)
  end.

(** [for child_id in child_ids: child = rec(child_id, visiting) ...],
    with the one [visiting] set threaded through the calls. *)
Fixpoint child_loop (rec : string -> gset string -> res (option tree * gset string))
    (child_ids : list string) (st : list tree * gset (string * string))
    (visiting : gset string)
  : res (list tree * gset (string * string) * gset string) :=
  match child_ids with
  | [] => Ret (st, visiting)
  | child_id :: rest =>
      '(child, visiting) ← rec child_id visiting;
      child_loop rec rest (add_child child st) visiting
  end.

(** [build_tree] returns the result and the [visiting] set as the call
    leaves it; [fuel] bounds the recursion depth. *)
Fixpoint build_tree (fuel : nat) (nodes : dict ArcNode)
    (children_map : dict (list string)) (node_id : string) (visiting : gset string)
  : res (option tree * gset string) :=
  match fuel with
  | O => OutOfFuel
  | S fuel' =>
      if decide (node_id ∈ visiting) then Ret (None, visiting)
      else
        match dict_get node_id nodes with
        | None => Ret (None, visiting)
        | Some node =>
            let visiting := {[node_id]} ∪ visiting in
            match get_tab_info node with
            | Some tab_info =>
                visiting ← set_remove node_id visiting;
                Ret (Some tab_info, visiting)
            | None =>
                let child_ids :=
                  match dict_get node_id children_map with Some l => l | None => [] end in
                if negb (is_folder_like node) && negb (bool_decide (child_ids ≠ [])) then
                  visiting ← set_remove node_id visiting;
                  Ret (None, visiting)
                else
                  let title := get_node_title node "Untitled Folder" in
                  '(children, _, visiting) ←
                    child_loop (build_tree fuel' nodes children_map) child_ids ([], ∅) visiting;
                  visiting ← set_remove node_id visiting;
                  Ret (Some (Folder title children), visiting)
            end
        end
  end.

(** Recursion never goes deeper than the number of nodes. *)
Definition depth_bound (nodes : dict ArcNode) : nat := (length nodes + 1)%nat.

Arguments depth_bound : simpl never.

Fixpoint top_loop (nodes : dict ArcNode) (children_map : dict (list string))
    (node_ids : list string) (st : list tree * gset (string * string))
  : res (list tree * gset (string * string)) :=
  match node_ids with
  | [] => Ret st
  | node_id :: rest =>
      '(child, _) ← build_tree (depth_bound nodes) nodes children_map node_id ∅;
      top_loop nodes children_map rest (add_child child st)
  end.

Definition build_children_from_ids (node_ids : list string) (nodes : dict ArcNode)
    (children_map : dict (list string)) : res (list tree) :=
  '(children, _) ← top_loop nodes children_map node_ids ([], ∅);
  Ret children.

(** *** The same construction, remembering which node made each entry *)

Local Unset Elimination Schemes.

Inductive ptree : Type :=
| PBookmark (id : string) (title url : string)
| PFolder (id : string) (title : string) (children : list ptree).

Local Set Elimination Schemes.

Fixpoint erase (t : ptree) : tree :=
  match t with
  | PBookmark _ t u => Bookmark t u
  | PFolder _ t c => Folder t (map erase c)
  end.

Definition add_pchild (child : option ptree) (st : list ptree * gset (string * string))
  : list ptree * gset (string * string) :=
  match child with
  | None => st
  | Some (PBookmark i t u) =>
      if decide ((t, u) ∈ st.2) then st
      else (st.1 ++ [PBookmark i t u], {[(t, u)]} ∪ st.2)
  | Some (PFolder i t c) => (st.1 ++ [PFolder i t c], st.2)
  end.

Fixpoint pchild_loop (rec : string -> gset string -> res (option ptree * gset string))
    (child_ids : list string) (st : list ptree * gset (string * string))
    (visiting : gset string)
  : res (list ptree * gset (string * string) * gset string) :=
  match child_ids with
  | [] => Ret (st, visiting)
  | child_id :: rest =>
      '(child, visiting) ← rec child_id visiting;
      pchild_loop rec rest (add_pchild child st) visiting
  end.

Definition tag (id : string) (t : tree) : ptree :=
  match t with
  | Bookmark t u => PBookmark id t u
  | Folder t _ => PFolder id t []
  end.

Fixpoint build_ptree (fuel : nat) (nodes : dict ArcNode)
    (children_map : dict (list string)) (node_id : string) (visiting : gset string)
  : res (option ptree * gset string) :=
  match fuel with
  | O => OutOfFuel
  | S fuel' =>
      if decide (node_id ∈ visiting) then Ret (None, visiting)
      else
        match dict_get node_id nodes with
        | None => Ret (None, visiting)
        | Some node =>
            let visiting := {[node_id]} ∪ visiting in
            match get_tab_info node with
            | Some tab_info =>
                visiting ← set_remove node_id visiting;
                Ret (Some (tag node_id tab_info), visiting)
            | None =>
                let child_ids :=
                  match dict_get node_id children_map with Some l => l | None => [] end in
                if negb (is_folder_like node) && negb (bool_decide (child_ids ≠ [])) then
                  visiting ← set_remove node_id visiting;
                  Ret (None, visiting)
                else
                  let title := get_node_title node "Untitled Folder" in
                  '(children, _, visiting) ←
                    pchild_loop (build_ptree fuel' nodes children_map) child_ids ([], ∅) visiting;
                  visiting ← set_remove node_id visiting;
                  Ret (Some (PFolder node_id title children), visiting)
            end
        end
  end.

(** No id on a path from the root of [t] is in [anc] or occurs twice. *)
Fixpoint path_distinct (anc : gset string) (t : ptree) : Prop :=
  match t with
  | PBookmark i _ _ => i ∉ anc
  | PFolder i _ c =>
      (i ∉ anc) /\
      (fix all (l : list ptree) : Prop :=
         match l with
         | [] => True
         | x :: l' => path_distinct ({[i]} ∪ anc) x /\ all l'
         end) c
  end.

(** ** Node table builder and container parsing *)

Definition item_node (order : nat) (item : json) : option ArcNode :=
  match item with
  | JObj it =>
      match py_get "id" it with
      | JStr node_id =>
          if PyStr.nonempty node_id then
            let data := match py_get "data" it with JObj d => d | _ => [] end in
            let parent_id :=
              py_or (py_or (py_get "parentID" it) (py_get "parentId" it))
                    (py_get "parent_id" it) in
            let parent_id :=
              match parent_id with
              | JStr p => if PyStr.nonempty (PyStr.strip p) then parent_id else JNull
              | _ => parent_id
              end in
            let title := match py_get "title" it with JStr t => Some t | _ => None end in
            Some (mkArcNode node_id parent_id title data (Z.of_nat order))
          else None
      | _ => None
      end
  | _ => None
  end.

(** The first loop of [parse_container]. *)
Fixpoint build_nodes (items : list (nat * json)) (nodes : dict ArcNode) : dict ArcNode :=
  match items with
  | [] => nodes
  | (order, item) :: rest =>
      match item_node order item with
      | Some node => build_nodes rest (dict_set (node_id node) node nodes)
      | None => build_nodes rest nodes
      end
  end.

(** [p in nodes]: a list or a mapping is not hashable. *)
Definition key_in_nodes (p : json) (nodes : dict ArcNode) : res bool :=
  match p with
  | JStr s => Ret (dict_mem s nodes)
  | JArr _ | JObj _ => Raise TypeError
  | _ => Ret false
  end.

(** [node.parent_id and node.parent_id in nodes] *)
Definition parent_known (node : ArcNode) (nodes : dict ArcNode) : res bool :=
  if truthy (parent_id node) then key_in_nodes (parent_id node) nodes else Ret false.

Fixpoint build_children_map (nodes : dict ArcNode) (values : list ArcNode)
    (children_map : dict (list string)) : res (dict (list string)) :=
  match values with
  | [] => Ret children_map
  | node :: rest =>
      known ← parent_known node nodes;
      build_children_map nodes rest
        (if known : bool then
           match parent_id node with
           | JStr p => dict_append p (node_id node) children_map
           | _ => children_map
           end
         else children_map)
  end.

Fixpoint collect_root_ids (nodes : dict ArcNode) (ordered_nodes : list ArcNode)
  : res (list string) :=
  match ordered_nodes with
  | [] => Ret []
  | node :: rest =>
      known ← parent_known node nodes;
      ids ← collect_root_ids nodes rest;
      Ret (if known : bool then ids else node_id node :: ids)
  end.

(** [count_nodes]: the pair [(folders, tabs)]. *)
Fixpoint count_walk (node : tree) (acc : nat * nat) : nat * nat :=
  match node with
  | Folder _ children =>
      fold_left (fun a child => count_walk child a) children (S acc.1, acc.2)
  | Bookmark _ _ => (acc.1, S acc.2)
  end.

Definition count_nodes (nodes : list tree) : nat * nat :=
  fold_left (fun a node => count_walk node a) nodes (0%nat, 0%nat).

Definition container_title (container_index : nat) : string :=
  "Arc Export (Container " +:+ pretty (container_index + 1)%nat +:+ ")".

Inductive main_result : Type :=
| Exported            (* output written *)
| NothingExportable   (* "No exportable items found in the sidebar data." *)
| WriteFailed.        (* "Failed to write output: ..." *)

Definition exit_code (r : main_result) : Z :=
  match r with
  | Exported => 0
  | NothingExportable => 2
  | WriteFailed => 2
  end.

Section Pipeline.

(** The order in which a Python [set] of strings is iterated is not
    specified, and [str] of a value other than a string is the
    interpreter's printer: the embedding takes both as given. *)
Variable set_iter : gset string -> list string.
Variable py_repr : json -> string.

Definition py_str (v : json) : string :=
  match v with JStr s => s | _ => py_repr v end.

Definition extract_space_roots (space : dict json) (nodes : dict ArcNode) : list string :=
  let valid_ids := filter (fun node_id => dict_mem node_id nodes = true)
                          (set_iter (candidate_ids space)) in
  sorted_by (order_of nodes) valid_ids.

(** The state of the loop over the spaces. *)
Record space_state : Type := mkSpaceState {
  space_nodes : list tree;
  used_ids : gset string;
  included : nat
}.

(** One iteration of [for index, space in enumerate(spaces)]. *)
Definition space_step (nodes : dict ArcNode) (children_map : dict (list string))
    (include_unpinned : bool) (st : space_state) (index : nat) (space : json)
  : res space_state :=
  match space with
  | JObj sp =>
      let pinned := space_is_pinned sp in
      if bool_decide (pinned = Some false) && negb include_unpinned then Ret st
      else
        let title :=
          py_or (py_or (py_get "title" sp) (py_get "name" sp))
                (JStr ("Space " +:+ pretty (index + 1)%nat)) in
        let root_ids_for_space := extract_space_roots sp nodes in
        match root_ids_for_space with
        | [] => Ret st
        | _ =>
            children ← build_children_from_ids root_ids_for_space nodes children_map;
            match children with
            | [] => Ret st
            | _ =>
                Ret (mkSpaceState
                       (space_nodes st ++ [Folder (py_str title) children])
                       (used_ids st ∪ list_to_set root_ids_for_space)
                       (S (included st)))
            end
        end
  | _ => Ret st
  end.

Fixpoint space_loop (nodes : dict ArcNode) (children_map : dict (list string))
    (include_unpinned : bool) (spaces : list (nat * json)) (st : space_state)
  : res space_state :=
  match spaces with
  | [] => Ret st
  | (index, space) :: rest =>
      st ← space_step nodes children_map include_unpinned st index space;
      space_loop nodes children_map include_unpinned rest st
  end.

(** The fallback of both branches: every root id, in one synthetic folder. *)
Definition wrap_roots (root_ids : list string) (nodes : dict ArcNode)
    (children_map : dict (list string)) (container_index : nat) : res (list tree) :=
  root_children ← build_children_from_ids root_ids nodes children_map;
  match root_children with
  | [] => Ret []
  | _ => Ret [Folder (container_title container_index) root_children]
  end.

Definition parse_container (container : dict json) (container_index : nat)
    (include_unpinned : bool) : res (list tree * nat * nat) :=
  let items :=
    match find_list_for_key (JObj container) "items" with
    | Some l => l
    | None => []
    end in
  let nodes := build_nodes (enumerate items) [] in
  children_map ← build_children_map nodes (dict_values nodes) [];
  let ordered_nodes := sorted_by order (dict_values nodes) in
  root_ids ← collect_root_ids nodes ordered_nodes;
  let spaces := find_list_for_key (JObj container) "spaces" in
  let spaces_detected := match spaces with Some l => length l | None => 0%nat end in
  match spaces with
  | Some ((_ :: _) as spaces) =>
      st ← space_loop nodes children_map include_unpinned (enumerate spaces)
             (mkSpaceState [] ∅ 0);
      match space_nodes st with
      | _ :: _ =>
          let remaining_root_ids :=
            filter (fun node_id => node_id ∉ used_ids st) root_ids in
          remaining_nodes ← build_children_from_ids remaining_root_ids nodes children_map;
          Ret (space_nodes st ++ remaining_nodes, spaces_detected, included st)
      | [] =>
          top_nodes ← wrap_roots root_ids nodes children_map container_index;
          Ret (top_nodes, spaces_detected, included st)
      end
  | _ =>
      top_nodes ← wrap_roots root_ids nodes children_map container_index;
      Ret (top_nodes, spaces_detected, 0%nat)
  end.

(** One iteration of [for container_index, container in selected]. *)
Definition container_step (include_unpinned all_containers : bool) (n_selected : nat)
    (st : list tree * nat * nat) (container_index : nat) (container : json)
  : res (list tree * nat * nat) :=
  match container with
  | JObj c =>
      let '(all_nodes, detected_total, included_total) := st in
      '(container_nodes, detected, incl) ← parse_container c container_index include_unpinned;
      let detected_total := (detected_total + detected)%nat in
      let included_total := (included_total + incl)%nat in
      match container_nodes with
      | [] => Ret (all_nodes, detected_total, included_total)
      | _ =>
          if all_containers && bool_decide (1 < n_selected)%nat then
            Ret (all_nodes ++ [Folder (container_title container_index) container_nodes],
                 detected_total, included_total)
          else Ret (all_nodes ++ container_nodes, detected_total, included_total)
      end
  | _ => Ret st
  end.

Fixpoint container_loop (include_unpinned all_containers : bool) (n_selected : nat)
    (selected : list (nat * json)) (st : list tree * nat * nat)
  : res (list tree * nat * nat) :=
  match selected with
  | [] => Ret st
  | (container_index, container) :: rest =>
      st ← container_step include_unpinned all_containers n_selected st
             container_index container;
      container_loop include_unpinned all_containers n_selected rest st
  end.

Definition parse_arc_sidebar (data : dict json) (include_unpinned all_containers : bool)
  : res (list tree * ExportStats) :=
  let containers := extract_containers data in
  let selected := select_containers containers all_containers in
  '(all_nodes, detected_total, included_total) ←
    container_loop include_unpinned all_containers (length selected) selected
      ([], 0%nat, 0%nat);
  let '(folders, tabs) := count_nodes all_nodes in
  Ret (all_nodes,
       mkExportStats (length containers) (length selected)
         detected_total included_total folders tabs).

(** [main] from the loaded document on; [write_ok] tells whether
    [write_output] succeeds. *)
Definition main_after_load (data : dict json) (include_unpinned all_containers : bool)
    (write_ok : bool) : res main_result :=
  '(nodes, stats) ← parse_arc_sidebar data include_unpinned all_containers;
  match nodes with
  | [] => Ret NothingExportable
  | _ => if write_ok then Ret Exported else Ret WriteFailed
  end.

End Pipeline.

(** ** Notions used by the statements *)

(** The keys of a dict, as a set. *)
Definition dict_keyset {V} (d : dict V) : gset string := list_to_set (dict_keys d).

(** What [build_ptree] stands for once the ids are forgotten. *)
Definition erase_result (r : res (option ptree * gset string))
  : res (option tree * gset string) :=
  match r with
  | Ret (t, v) => Ret (erase <$> t, v)
  | Raise e => Raise e
  | OutOfFuel => OutOfFuel
  end.

(** The first truthy value of a list: what an [or] chain selects when
    one of its operands is truthy. *)
Definition first_truthy (l : list json) : option json :=
  first_some (fun v => if truthy v then Some v else None) l.

Definition url_values (tab : dict json) : list json :=
  [py_get "savedURL" tab; py_get "url" tab; py_get "URL" tab].

(** The premise of the classification rule read literally: some url key
    of the tab mapping holds a non-empty string. *)
Definition holds_url_string (node : ArcNode) : Prop :=
  exists tab s, py_get "tab" (data node) = JObj tab /\ JStr s ∈ url_values tab /\ s ≠ "".

Definition blank_url_node : ArcNode :=
  mkArcNode "n" JNull None [("tab", JObj [("savedURL", JStr " ")]); ("list", JObj [])] 0.

Definition shadowed_url_node : ArcNode :=
  mkArcNode "n" JNull None
    [("tab", JObj [("savedURL", JInt 5); ("url", JStr "https://example.com")])] 0.

(** What every Bookmark of the output has to satisfy. *)
Definition good_bookmark (t u : string) : Prop :=
  t ≠ "" /\ u ≠ "" /\ PyStr.trimmed t /\ PyStr.trimmed u.

Fixpoint bookmarks_ok (x : tree) : Prop :=
  match x with
  | Bookmark t u => good_bookmark t u
  | Folder _ c =>
      (fix all (l : list tree) : Prop :=
         match l with
         | [] => True
         | y :: l' => bookmarks_ok y /\ all l'
         end) c
  end.

(** One of the title candidates is a string with at least one character. *)
Definition holds_title_string (node : ArcNode) (tab : dict json) : Prop :=
  exists s, s ≠ "" /\
    (py_get "savedTitle" tab = JStr s \/ py_get "title" tab = JStr s \/ title node = Some s).

(** The document of the repository's test, [synthetic_sidebar_data]. *)
Definition synthetic_sidebar_data : dict json :=
  [("root", JObj [("sidebar", JObj [("containers", JArr [
     JObj [("items", JArr [
       JObj [("id", JStr "space_root"); ("title", JStr "Space One");
             ("data", JObj [("itemContainer", JObj [])]); ("parentID", JNull)];
       JObj [("id", JStr "list1"); ("title", JStr "Reading");
             ("data", JObj [("list", JObj [])]); ("parentID", JStr "space_root")];
       JObj [("id", JStr "tab1");
             ("data", JObj [("tab", JObj [("savedURL", JStr "https://example.com");
                                          ("savedTitle", JStr "Example")])]);
             ("parentID", JStr "list1")];
       JObj [("id", JStr "tab2");
             ("data", JObj [("tab", JObj [("savedURL", JStr "https://example.org");
                                          ("savedTitle", JStr "Example Org")])]);
             ("parentID", JStr "list1")]])]])])])].

Definition synthetic_forest : list tree :=
  [Folder "Arc Export (Container 1)"
     [Folder "Space One"
        [Folder "Reading"
           [Bookmark "Example" "https://example.com";
            Bookmark "Example Org" "https://example.org"]]]].

(** [(title, url)] of a Bookmark. *)
Definition tab_key (x : tree) : option (string * string) :=
  match x with Bookmark t u => Some (t, u) | Folder _ _ => None end.

(** [x] is a Bookmark equal to a Bookmark of [earlier]. *)
Definition repeats (x : tree) (earlier : list tree) : bool :=
  match tab_key x with
  | Some k => bool_decide (k ∈ omap tab_key earlier)
  | None => false
  end.

(** The children produced in order, less every Bookmark that repeats an
    earlier one; [earlier] holds what was produced before [l]. *)
Fixpoint drop_repeats (earlier l : list tree) : list tree :=
  match l with
  | [] => []
  | x :: l' =>
      (if repeats x earlier then [] else [x]) ++ drop_repeats (earlier ++ [x]) l'
  end.

Definition dedup_siblings (l : list tree) : list tree := drop_repeats [] l.

(** The tree a call produced, if any. *)
Definition produced (r : res (option tree * gset string)) : option tree :=
  match r with Ret (Some t, _) => Some t | _ => None end.

Definition is_folder (x : tree) : bool :=
  match x with Folder _ _ => true | Bookmark _ _ => false end.

(** The state of a child loop after the children [e] were produced. *)
Definition loop_state (e : list tree) : list tree * gset (string * string) :=
  (dedup_siblings e, list_to_set (omap tab_key e)).

(** [child_ids] of [build_tree]. *)
Definition child_ids_of (children_map : dict (list string)) (node_id : string)
  : list string :=
  match dict_get node_id children_map with Some l => l | None => [] end.

(** A folder with the same tab twice, and the same tab again in a
    sub-folder. *)
Definition twin_tab (id : string) : ArcNode :=
  mkArcNode id JNull None
    [("tab", JObj [("savedURL", JStr "https://example.com"); ("savedTitle", JStr "Example")])]
    0.

Definition twin_nodes : dict ArcNode :=
  [("f", mkArcNode "f" JNull (Some "F") [("list", JObj [])] 0);
   ("a", twin_tab "a"); ("b", twin_tab "b");
   ("g", mkArcNode "g" JNull (Some "G") [("list", JObj [])] 0);
   ("c", twin_tab "c")].

Definition twin_children : dict (list string) :=
  [("f", ["a"; "b"; "g"]); ("g", ["c"])].

(** Two folders that name each other as parent: A→B→A. *)
Definition cycle_nodes : dict ArcNode :=
  [("A", mkArcNode "A" (JStr "B") (Some "A") [("list", JObj [])] 0);
   ("B", mkArcNode "B" (JStr "A") (Some "B") [("list", JObj [])] 1)].

Definition cycle_children : dict (list string) := [("B", ["A"]); ("A", ["B"])].

(** Every list held under a key [containers], in the order of a
    depth-first walk: a mapping's own entry first, then its values in
    insertion order; a sequence by index. *)
Fixpoint containers_lists (v : json) : list (list json) :=
  match v with
  | JObj d =>
      match py_get "containers" d with JArr l => [l] | _ => [] end
      ++ flat_map (fun kv => containers_lists (snd kv)) d
  | JArr l => flat_map containers_lists l
  | _ => []
  end.

(** The value at the end of a path of keys. *)
Fixpoint json_path (path : list string) (v : json) : option json :=
  match path with
  | [] => Some v
  | k :: path' =>
      match v with
      | JObj d =>
          match dict_get k d with
          | Some v' => json_path path' v'
          | None => None
          end
      | _ => None
      end
  end.

Definition list_at (path : list string) (v : json) : option (list json) :=
  match json_path path v with Some (JArr l) => Some l | _ => None end.

(** [root] of [extract_containers]: the document's [root] entry when it
    has one, else the document. *)
Definition root_of (doc : dict json) : json :=
  match dict_get "root" doc with Some r => r | None => JObj doc end.

(** The key [k] occurs somewhere in [v]. *)
Fixpoint has_key (k : string) (v : json) : bool :=
  match v with
  | JObj d => existsb (fun kv => String.eqb k (fst kv) || has_key k (snd kv)) d
  | JArr l => existsb (has_key k) l
  | _ => false
  end.

Definition stray_containers_doc : dict json :=
  [("root", JObj []); ("containers", JArr [JInt 1])].






Definition by_order (nodes : dict ArcNode) (a b : string) : Prop :=
  (order_of nodes a <= order_of nodes b)%Z.

(** A space whose only root id sits under a scan key, two levels down. *)
Definition scan_space : dict json :=
  [("title", JStr "Work"); ("container", JObj [("ItemContainer", JStr "A")])].

Definition roots_space : dict json :=
  [("title", JStr "Work");
   ("itemContainerIDs", JArr [JStr "B"; JStr "A"; JStr "missing"; JInt 3]);
   ("data", JObj [("rootId", JStr "A")])].


(** The node table of an items list. *)
Definition nodes_of (items : list json) : dict ArcNode := build_nodes (enumerate items) [].



(** Every key of the table is the id of its node, and no key repeats. *)
Definition table_ok (nodes : dict ArcNode) : Prop :=
  NoDup (dict_keys nodes) /\ Forall (fun kv => node_id (snd kv) = fst kv) nodes.

(** The values looked at for the pinned status: the four keys on the
    space, then the four keys on its [data] mapping. *)
Definition pin_values (space : dict json) : list json :=
  map (fun key => py_get key space) pin_keys
  ++ match py_get "data" space with
     | JObj d => map (fun key => py_get key d) pin_keys
     | _ => []
     end.

Definition first_boolean (l : list json) : option bool := first_some as_bool l.

(** The expansion of a list of ids, as [build_children_from_ids] returns it. *)
Definition expand (nodes : dict ArcNode) (children_map : dict (list string))
    (ids : list string) : list tree :=
  dedup_siblings
    (omap (fun i => produced (build_tree (depth_bound nodes) nodes children_map i ∅)) ids).

Section Yield.
Variable set_iter : gset string -> list string.
Variable py_repr : json -> string.

Definition space_title (index : nat) (sp : dict json) : string :=
  py_str py_repr
    (py_or (py_or (py_get "title" sp) (py_get "name" sp))
           (JStr ("Space " +:+ pretty (index + 1)%nat))).

(** The state after a space was included. *)
Definition include_space (nodes : dict ArcNode) (children_map : dict (list string))
    (st : space_state) (index : nat) (sp : dict json) : space_state :=
  let roots := extract_space_roots set_iter sp nodes in
  mkSpaceState
    (space_nodes st ++ [Folder (space_title index sp) (expand nodes children_map roots)])
    (used_ids st ∪ list_to_set roots)
    (S (included st)).

(** What a space contributes: its folder and the root ids it claims. *)
Definition space_yield (nodes : dict ArcNode) (children_map : dict (list string))
    (include_unpinned : bool) (ispace : nat * json) : option (tree * list string) :=
  match snd ispace with
  | JObj sp =>
      if bool_decide (space_is_pinned sp = Some false) && negb include_unpinned then None
      else
        let roots := extract_space_roots set_iter sp nodes in
        match expand nodes children_map roots with
        | [] => None
        | children => Some (Folder (space_title (fst ispace) sp) children, roots)
        end
  | _ => None
  end.

Definition included_spaces (nodes : dict ArcNode) (children_map : dict (list string))
    (include_unpinned : bool) (spaces : list json) : list (tree * list string) :=
  omap (space_yield nodes children_map include_unpinned) (enumerate spaces).

End Yield.

(** The root ids claimed by the included spaces. *)
Definition claimed (ys : list (tree * list string)) : gset string :=
  list_to_set (flat_map snd ys).

Definition spaces_of (container : dict json) : list json :=
  match find_list_for_key (JObj container) "spaces" with Some l => l | None => [] end.

Definition items_of (container : dict json) : list json :=
  match find_list_for_key (JObj container) "items" with Some l => l | None => [] end.

Definition unpinned_space : dict json :=
  [("title", JStr "Work"); ("isPinned", JBool false); ("itemContainerIDs", JArr [JStr "A"])].

Definition unmarked_space : dict json :=
  [("title", JStr "Work"); ("pinned", JStr "no"); ("itemContainerIDs", JArr [JStr "A"])].

(** The top-level sequence of a container, from what its spaces yield
    and its root ids. *)
Definition top_level (nodes : dict ArcNode) (children_map : dict (list string))
    (root_ids : list string) (container_index : nat) (ys : list (tree * list string))
  : list tree :=
  match ys with
  | [] =>
      match expand nodes children_map root_ids with
      | [] => []
      | root_children => [Folder (container_title container_index) root_children]
      end
  | _ =>
      map fst ys
      ++ expand nodes children_map (filter (fun id => id ∉ claimed ys) root_ids)
  end.

Definition tab_item (id url parent : string) : json :=
  JObj [("id", JStr id); ("parentID", JStr parent);
        ("data", JObj [("tab", JObj [("savedURL", JStr url); ("savedTitle", JStr id)])])].

Definition folder_item (id : string) : json :=
  JObj [("id", JStr id); ("title", JStr id); ("data", JObj [("itemContainer", JObj [])])].

(** A container with two root folders, one of them claimed by a space. *)
Definition spaced_container : dict json :=
  [("items", JArr [folder_item "A"; tab_item "t1" "https://a.example" "A";
                   folder_item "C"; tab_item "t2" "https://c.example" "C"]);
   ("spaces", JArr [JStr "separator";
                    JObj [("title", JStr "Work"); ("itemContainerIDs", JArr [JStr "A"])];
                    JObj [("title", JStr "Empty")]])].

(** Every list held under [key], in the order of the depth-first walk
    of [find_list_for_key]. *)
Fixpoint lists_under (key : string) (v : json) : list (list json) :=
  match v with
  | JObj d =>
      match dict_get key d with Some (JArr l) => [l] | _ => [] end
      ++ flat_map (fun kv => lists_under key (snd kv)) d
  | JArr l => flat_map (lists_under key) l
  | _ => []
  end.

(** [if items:] for a container. *)
Definition has_items (container : json) : bool :=
  nonempty_list (find_list_for_key container "items").

(** The Folders and the Bookmarks of a tree, counted by the structure. *)
Fixpoint tree_folders (t : tree) : nat :=
  match t with
  | Bookmark _ _ => 0
  | Folder _ c => S ((fix sum (l : list tree) := match l with
                                                | [] => 0
                                                | x :: l' => tree_folders x + sum l'
                                                end) c)
  end%nat.

Fixpoint tree_tabs (t : tree) : nat :=
  match t with
  | Bookmark _ _ => 1
  | Folder _ c => (fix sum (l : list tree) := match l with
                                              | [] => 0
                                              | x :: l' => tree_tabs x + sum l'
                                              end) c
  end%nat.

Definition forest_folders (l : list tree) : nat :=
  foldr (fun t n => (tree_folders t + n)%nat) 0%nat l.
Definition forest_tabs (l : list tree) : nat :=
  foldr (fun t n => (tree_tabs t + n)%nat) 0%nat l.

(** A parent reference that cannot be looked up in the table: a
    non-empty list or mapping is truthy and not hashable. *)
Definition unhashable_parent (n : ArcNode) : bool :=
  truthy (parent_id n) &&
  match parent_id n with JArr _ | JObj _ => true | _ => false end.

(** The parent of a node, when it is a key of the table. *)
Definition parent_of (nodes : dict ArcNode) (n : ArcNode) : option string :=
  match parent_id n with
  | JStr p => if PyStr.nonempty p && dict_mem p nodes then Some p else None
  | _ => None
  end.

(** A folder made for a container when several are exported. *)
Definition container_folder (n : nat) (t : tree) : Prop :=
  exists i c, (i < n)%nat /\ c ≠ [] /\ t = Folder (container_title i) c.

(** A document with two containers. *)
Definition two_containers_doc : dict json :=
  [("containers",
    JArr [JObj [("items", JArr [folder_item "A"])];
          JObj [("items", JArr [folder_item "B"; tab_item "t" "https://b.example" "B"])]])].

(** The node of the table [n] was made from the item at index [order n]. *)
Definition made_from (items : list json) (n : ArcNode) : Prop :=
  exists i item, items !! i = Some item /\ item_node i item = Some n /\ order n = Z.of_nat i.

(** The ids of the nodes whose parent is [p], in the order of the table. *)
Definition kids (nodes : dict ArcNode) (p : string) : list string :=
  map node_id (filter (fun n => parent_of nodes n = Some p) (dict_values nodes)).

(** The ids of the nodes without a parent in the table, by [order]. *)
Definition orphans (nodes : dict ArcNode) : list string :=
  map node_id (filter (fun n => parent_of nodes n = None)
                      (sorted_by order (dict_values nodes))).

(** Every Folder of the tree has a title that is not empty and has no
    whitespace at either end. *)
Fixpoint folder_titles_ok (x : tree) : Prop :=
  match x with
  | Bookmark _ _ => True
  | Folder t c =>
      t ≠ "" /\ PyStr.trimmed t /\
      (fix all (l : list tree) : Prop :=
         match l with
         | [] => True
         | y :: l' => folder_titles_ok y /\ all l'
         end) c
  end.

(** A node the table holds only as noise: no tab, no folder key, no child. *)
Definition is_noise (children_map : dict (list string)) (id : string) (node : ArcNode)
  : Prop :=
  get_tab_info node = None /\ is_folder_like node = false /\
  child_ids_of children_map id = [].

(** ** Bookmark-file renderer *)

Module Html.

(** The double quote, as a character and as a string. *)
Definition quote_char : ascii := "034"%char.
Definition quote : string := String quote_char EmptyString.

(** [s.replace(c, r)] for a pattern of one character. *)
Fixpoint replace_char (c : ascii) (r : string) (s : string) : string :=
  match s with
  | EmptyString => EmptyString
  | String a s' =>
      if Ascii.eqb a c then r +:+ replace_char c r s'
      else String a (replace_char c r s')
  end.

(** [html.escape(s, quote)] of the Python library: five replacements in
    a row, the ampersand first. *)
Definition escape (s : string) (with_quotes : bool) : string :=
  let s := replace_char "&" "&amp;" s in
  let s := replace_char "<" "&lt;" s in
  let s := replace_char ">" "&gt;" s in
  if with_quotes then
    let s := replace_char quote_char "&quot;" s in
    replace_char "'" "&#x27;" s
  else s.

(** What the escaping makes of one character. *)
Definition escape_char (a : ascii) : string :=
  if Ascii.eqb a "&" then "&amp;"
  else if Ascii.eqb a "<" then "&lt;"
  else if Ascii.eqb a ">" then "&gt;"
  else if Ascii.eqb a quote_char then "&quot;"
  else if Ascii.eqb a "'" then "&#x27;"
  else String a EmptyString.

(** A reader of the five entities: [skip] characters of an entity are
    still to be passed over. *)
Fixpoint unescape_from (skip : nat) (s : string) : string :=
  match s with
  | EmptyString => EmptyString
  | String a s' =>
      match skip with
      | S k => unescape_from k s'
      | O =>
          if Ascii.eqb a "&" then
            if PyStr.starts_with "amp;" s' then String "&" (unescape_from 4 s')
            else if PyStr.starts_with "lt;" s' then String "<" (unescape_from 3 s')
            else if PyStr.starts_with "gt;" s' then String ">" (unescape_from 3 s')
            else if PyStr.starts_with "quot;" s' then String quote_char (unescape_from 5 s')
            else if PyStr.starts_with "#x27;" s' then String "'" (unescape_from 5 s')
            else String a (unescape_from 0 s')
          else String a (unescape_from 0 s')
      end
  end.

Definition unescape (s : string) : string := unescape_from 0 s.

(** A character of markup: what must not come out of a title or a url. *)
Definition is_markup (a : ascii) : bool :=
  Ascii.eqb a "<" || Ascii.eqb a ">" || Ascii.eqb a quote_char || Ascii.eqb a "'".

Fixpoint has_markup (s : string) : bool :=
  match s with
  | EmptyString => false
  | String a s' => is_markup a || has_markup s'
  end.

(** ["    " * depth] *)
Fixpoint indent_of (depth : nat) : string :=
  match depth with
  | O => EmptyString
  | S d => "    " +:+ indent_of d
  end.

(** The lines of one node; [render_nodes] is the loop over a list. *)
Fixpoint render_node (depth : nat) (node : tree) : list string :=
  let indent := indent_of depth in
  match node with
  | Folder title children =>
      [indent +:+ "<DT><H3>" +:+ escape title true +:+ "</H3>";
       indent +:+ "<DL><p>"]
      ++ flat_map (render_node (S depth)) children
      ++ [indent +:+ "</DL><p>"]
  | Bookmark title url =>
      [indent +:+ "<DT><A HREF=" +:+ quote +:+ escape url true +:+ quote +:+ ">"
       +:+ escape title true +:+ "</A>"]
  end.

Definition render_nodes (nodes : list tree) (depth : nat) : list string :=
  flat_map (render_node depth) nodes.

Definition header_lines : list string :=
  ["<!DOCTYPE NETSCAPE-Bookmark-file-1>";
   "<META HTTP-EQUIV=" +:+ quote +:+ "Content-Type" +:+ quote +:+ " CONTENT=" +:+ quote
     +:+ "text/html; charset=UTF-8" +:+ quote +:+ ">";
   "<TITLE>Bookmarks</TITLE>";
   "<H1>Bookmarks</H1>";
   "<DL><p>"].

(** The list [lines] of [render_bookmarks_html] before it is joined. *)
Definition document_lines (nodes : list tree) : list string :=
  header_lines ++ render_nodes nodes 1 ++ ["</DL><p>"].

Definition newline : string := String "010"%char EmptyString.

Definition render_bookmarks_html (nodes : list tree) : string :=
  String.concat newline (document_lines nodes) +:+ newline.

End Html.

(** ** The document as loaded *)

Section Loaded.
Variable set_iter : gset string -> list string.
Variable py_repr : json -> string.

(** [parse_arc_sidebar] on whatever [load_json] returned: the first
    statement of [extract_containers] is [data.get], which only a
    mapping has. *)
Definition parse_loaded (doc : json) (include_unpinned all_containers : bool)
  : res (list tree * ExportStats) :=
  match doc with
  | JObj d => parse_arc_sidebar set_iter py_repr d include_unpinned all_containers
  | _ => Raise AttributeError
  end.

(** [main] from the loaded document on; it catches nothing that
    [parse_arc_sidebar] raises. *)
Definition main_loaded (doc : json) (include_unpinned all_containers : bool)
    (write_ok : bool) : res main_result :=
  '(nodes, stats) ← parse_loaded doc include_unpinned all_containers;
  match nodes with
  | [] => Ret NothingExportable
  | _ => if write_ok then Ret Exported else Ret WriteFailed
  end.

End Loaded.

(** A readable document that is a sequence, without a [containers] key. *)
Definition sequence_doc : json := JArr [JObj [("id", JStr "x")]].

(** * Properties *)

(** ** Cycle safety of the recursive assembly *)

Lemma dict_get_keyset {V} (d : dict V) k v : dict_get k d = Some v -> k ∈ dict_keyset d.
Proof.
  unfold dict_keyset, dict_keys. induction d as [|[k' v'] d IH]; simpl; [done|].
  destruct (String.eqb_spec k k') as [->|Hne].
  - intros _. set_solver.
  - intros H. apply IH in H. set_solver.
Qed.

Lemma list_to_set_size (l : list string) : size (list_to_set l : gset string) <= length l.
Proof.
  induction l as [|x l IH].
  - rewrite list_to_set_nil, size_empty. simpl. lia.
  - rewrite list_to_set_cons, size_union_alt, size_singleton. simpl.
    assert (size (list_to_set l ∖ {[x]} : gset string) <= size (list_to_set l : gset string)).
    { apply subseteq_size. set_solver. }
    lia.
Qed.

Lemma dict_keyset_size {V} (d : dict V) : size (dict_keyset d) <= length d.
Proof.
  unfold dict_keyset, dict_keys. etrans; [apply list_to_set_size|].
  by rewrite length_map.
Qed.

Lemma visiting_shrinks (K V : gset string) id :
  id ∈ K -> id ∉ V -> size (K ∖ ({[id]} ∪ V)) < size (K ∖ V).
Proof.
  intros HK HV. apply subset_size. split; [set_solver|].
  intros Hsub. assert (id ∈ K ∖ V) as Hin by set_solver.
  apply Hsub in Hin. set_solver.
Qed.

Lemma set_remove_added id (V : gset string) :
  id ∉ V -> set_remove id ({[id]} ∪ V) = Ret V.
Proof.
  intros HV. unfold set_remove. rewrite decide_True by set_solver.
  f_equal. set_solver.
Qed.

Lemma path_distinct_folder anc i t c :
  path_distinct anc (PFolder i t c) <-> i ∉ anc /\ Forall (path_distinct ({[i]} ∪ anc)) c.
Proof.
  simpl. apply and_iff_compat_l. induction c as [|x c IH].
  - split; [constructor|done].
  - rewrite Forall_cons, IH. done.
Qed.

Lemma add_pchild_distinct anc child st :
  (forall t, child = Some t -> path_distinct anc t) ->
  Forall (path_distinct anc) st.1 -> Forall (path_distinct anc) (add_pchild child st).1.
Proof.
  intros Hc Hst. destruct child as [[i t u|i t c]|]; simpl; [| |done].
  - case_decide; [done|]. simpl. apply Forall_app. split; [done|].
    constructor; [|constructor]. by apply Hc.
  - apply Forall_app. split; [done|]. constructor; [|constructor]. by apply Hc.
Qed.

Section Loop.
Context (K : gset string) (fuel : nat).
Context (rec : string -> gset string -> res (option ptree * gset string)).
Hypothesis rec_ok : forall id V, size (K ∖ V) < fuel ->
  exists r, rec id V = Ret (r, V) /\ forall t, r = Some t -> path_distinct V t.

Lemma pchild_loop_ok ids st V :
  size (K ∖ V) < fuel ->
  Forall (path_distinct V) st.1 ->
  exists st', pchild_loop rec ids st V = Ret (st', V) /\ Forall (path_distinct V) st'.1.
Proof.
  intros Hsz. revert st. induction ids as [|id ids IH]; intros st Hst; simpl.
  - eauto.
  - destruct (rec_ok id V Hsz) as (r & -> & Hr). simpl.
    apply IH. by apply add_pchild_distinct.
Qed.
End Loop.

Lemma build_ptree_ok nodes cm fuel : forall id V,
  size (dict_keyset nodes ∖ V) < fuel ->
  exists r, build_ptree fuel nodes cm id V = Ret (r, V) /\
            forall t, r = Some t -> path_distinct V t.
Proof.
  induction fuel as [|fuel IH]; intros id V Hsz; [lia|]. simpl.
  case_decide as Hin; [by eexists; split|].
  destruct (dict_get id nodes) as [node|] eqn:Hnode; [|by eexists; split].
  destruct (get_tab_info node) as [b|] eqn:Htab.
  { rewrite set_remove_added by done. simpl. eexists; split; [done|].
    intros t [= <-]. destruct b; simpl; [done|]. split; [done|done]. }
  destruct (negb (is_folder_like node) && _).
  { rewrite set_remove_added by done. simpl. by eexists; split. }
  assert (size (dict_keyset nodes ∖ ({[id]} ∪ V)) < fuel) as Hsz'.
  { pose proof (visiting_shrinks (dict_keyset nodes) V id
                  (dict_get_keyset _ _ _ Hnode) Hin). lia. }
  destruct (pchild_loop_ok (dict_keyset nodes) fuel _ (IH) 
              (match dict_get id cm with Some l => l | None => [] end)
              ([], ∅) ({[id]} ∪ V) Hsz') as ([c seen] & -> & Hc); [constructor|].
  simpl. rewrite set_remove_added by done. simpl.
  eexists; split; [done|]. intros t [= <-].
  apply path_distinct_folder. done.
Qed.

Lemma get_tab_info_bookmark node b :
  get_tab_info node = Some b -> exists t u, b = Bookmark t u.
Proof.
  unfold get_tab_info. intros H.
  repeat match type of H with
         | match ?x with _ => _ end = _ => destruct x; try discriminate
         | (if ?x then _ else _) = _ => destruct x; try discriminate
         end.
  all: injection H as <-; eauto.
Qed.

Lemma add_child_erase child st :
  add_child (erase <$> child) (map erase st.1, st.2)
  = (map erase (add_pchild child st).1, (add_pchild child st).2).
Proof.
  destruct child as [[i t u|i t c]|]; simpl; [| |done].
  - case_decide; [done|]. simpl. by rewrite map_app.
  - by rewrite map_app.
Qed.

Lemma child_loop_erase rec prec ids : forall st V,
  (forall id V, rec id V = erase_result (prec id V)) ->
  child_loop rec ids (map erase st.1, st.2) V
  = match pchild_loop prec ids st V with
    | Ret (st', V') => Ret (map erase st'.1, st'.2, V')
    | Raise e => Raise e
    | OutOfFuel => OutOfFuel
    end.
Proof.
  induction ids as [|id ids IH]; intros st V Hrec; simpl.
  - by destruct st.
  - rewrite Hrec. destruct (prec id V) as [[r V']| |]; simpl; [|done..].
    rewrite add_child_erase. by apply IH.
Qed.

Lemma build_tree_erase nodes cm fuel : forall id V,
  build_tree fuel nodes cm id V = erase_result (build_ptree fuel nodes cm id V).
Proof.
  induction fuel as [|fuel IH]; intros id V; [done|]. simpl.
  case_decide; [done|].
  destruct (dict_get id nodes) as [node|]; [|done].
  destruct (get_tab_info node) as [b|] eqn:Htab.
  { destruct (get_tab_info_bookmark _ _ Htab) as (t & u & ->).
    by destruct (set_remove _ _). }
  destruct (negb (is_folder_like node) && _).
  { by destruct (set_remove _ _). }
  pose proof (child_loop_erase _ _ (match dict_get id cm with Some l => l | None => [] end)
                ([], ∅) ({[id]} ∪ V) IH) as Hl. simpl in Hl. rewrite Hl.
  destruct (pchild_loop _ _ _ _) as [[[c seen] V']| |]; simpl; [|done..].
  by destruct (set_remove _ _).
Qed.

(** C1: whatever the node table and the children index (cyclic parent
    links included), [build_tree] with fuel for the depth of the table
    returns, leaves [visiting] as it found it, and its result has no
    node id twice on a path, nor an id of [visiting]; a node id that is
    in [visiting] gives the absent result at once. *)
Theorem build_tree_terminates nodes cm id V fuel :
  depth_bound nodes <= fuel ->
  (exists r : option ptree,
      build_ptree fuel nodes cm id V = Ret (r, V) /\
      build_tree fuel nodes cm id V = Ret (erase <$> r, V) /\
      (forall t, r = Some t -> path_distinct V t)) /\
  (forall n V', id ∈ V' -> build_tree (S n) nodes cm id V' = Ret (None, V')).
Proof.
  intros Hfuel. split.
  - destruct (build_ptree_ok nodes cm fuel id V) as (r & Hr & Hd).
    { pose proof (dict_keyset_size nodes).
      assert (size (dict_keyset nodes ∖ V) <= size (dict_keyset nodes)).
      { apply subseteq_size. set_solver. }
      unfold depth_bound in Hfuel. lia. }
    exists r. split; [done|]. split; [by rewrite build_tree_erase, Hr|done].
  - intros n V' Hin. simpl. by rewrite decide_True.
Qed.

(** ** Tabs are leaves *)

Lemma or_chain_first_truthy a b c v :
  first_truthy [a; b; c] = Some v -> py_or (py_or a b) c = v.
Proof.
  unfold first_truthy, py_or. simpl.
  destruct (truthy a) eqn:Ha; simpl; [by intros [= <-]; rewrite ?Ha|].
  destruct (truthy b) eqn:Hb; simpl; [by intros [= <-]; rewrite ?Hb|].
  destruct (truthy c) eqn:Hc; simpl; [by intros [= <-]|done].
Qed.

Lemma get_tab_info_url node tab u :
  py_get "tab" (data node) = JObj tab ->
  first_truthy (url_values tab) = Some (JStr u) ->
  PyStr.strip u ≠ "" ->
  exists t, get_tab_info node = Some (Bookmark t (PyStr.strip u)).
Proof.
  intros Htab Hurl Hu. unfold get_tab_info. rewrite Htab.
  rewrite (or_chain_first_truthy _ _ _ _ Hurl).
  destruct (PyStr.strip u) eqn:E; [done|]. simpl. eauto.
Qed.

(** C2, as the code has it: when the first truthy value among
    [savedURL], [url], [URL] of the tab mapping is a string with a
    character that is not whitespace, [build_tree] returns a Bookmark
    (for a node of the table that is not on the ancestor path),
    whatever else the node's data holds. *)
Theorem tab_node_is_leaf nodes cm id node tab u V fuel :
  dict_get id nodes = Some node ->
  id ∉ V ->
  py_get "tab" (data node) = JObj tab ->
  first_truthy (url_values tab) = Some (JStr u) ->
  PyStr.strip u ≠ "" ->
  exists t, build_tree (S fuel) nodes cm id V = Ret (Some (Bookmark t (PyStr.strip u)), V).
Proof.
  intros Hnode Hv Htab Hurl Hu.
  destruct (get_tab_info_url node tab u Htab Hurl Hu) as [t Ht].
  exists t. simpl. rewrite decide_False by done. rewrite Hnode, Ht.
  by rewrite set_remove_added.
Qed.

Lemma tab_node_is_leaf_witness :
  exists t, build_tree 1
      [("n", mkArcNode "n" JNull None
               [("tab", JObj [("savedURL", JStr " https://example.com ")]);
                ("list", JObj [])] 0)]
      [] "n" ∅
    = Ret (Some (Bookmark t (PyStr.strip " https://example.com ")), ∅).
Proof.
  eapply (tab_node_is_leaf _ [] "n" _ [("savedURL", JStr " https://example.com ")]
            " https://example.com " ∅ 0).
  - reflexivity.
  - set_solver.
  - reflexivity.
  - reflexivity.
  - vm_compute. discriminate.
Defined.

(** C2 as worded fails: a url made of whitespace, or a url behind a
    truthy value that is not a string, does not make a tab. *)
Lemma tab_node_is_leaf_counterexample :
  (holds_url_string blank_url_node /\
   build_tree 2 [("n", blank_url_node)] [] "n" ∅
   = Ret (Some (Folder "Untitled Folder" []), ∅)) /\
  (holds_url_string shadowed_url_node /\
   build_tree 2 [("n", shadowed_url_node)] [] "n" ∅ = Ret (None, ∅)).
Proof.
  split; split.
  - exists [("savedURL", JStr " ")], " ". split; [reflexivity|]. split; [|discriminate].
    apply list_elem_of_here.
  - vm_compute. reflexivity.
  - exists [("savedURL", JInt 5); ("url", JStr "https://example.com")], "https://example.com".
    split; [reflexivity|]. split; [|discriminate].
    apply list_elem_of_further, list_elem_of_here.
  - vm_compute. reflexivity.
Qed.

(** ** Bookmarks of the output *)

Lemma lstrip_first s c :
  PyStr.first_char (PyStr.lstrip s) = Some c -> PyStr.is_space c = false.
Proof.
  induction s as [|a s IH]; simpl; [done|].
  destruct (PyStr.is_space a) eqn:Ha; [done|]. simpl. by intros [= <-].
Qed.

Lemma rstrip_last s c :
  PyStr.last_char (PyStr.rstrip s) = Some c -> PyStr.is_space c = false.
Proof.
  induction s as [|a s IH]; simpl; [done|].
  destruct (PyStr.rstrip s) as [|b r] eqn:Hr.
  - destruct (PyStr.is_space a) eqn:Ha; simpl; [done|]. by intros [= <-].
  - done.
Qed.

Lemma rstrip_first s c :
  PyStr.first_char (PyStr.rstrip s) = Some c -> PyStr.first_char s = Some c.
Proof.
  destruct s as [|a s]; simpl; [done|].
  destruct (PyStr.rstrip s); [|done].
  by destruct (PyStr.is_space a).
Qed.

Lemma strip_trimmed s : PyStr.trimmed (PyStr.strip s).
Proof.
  unfold PyStr.strip. split; intros c Hc.
  - by apply rstrip_first, lstrip_first in Hc.
  - by apply rstrip_last in Hc.
Qed.

Lemma nonempty_true s : PyStr.nonempty s = true -> s ≠ "".
Proof. by destruct s. Qed.

Lemma bookmarks_ok_folder t c : bookmarks_ok (Folder t c) <-> Forall bookmarks_ok c.
Proof.
  simpl. induction c as [|x c IH].
  - split; [constructor|done].
  - by rewrite Forall_cons, IH.
Qed.

Lemma get_tab_info_good node b : get_tab_info node = Some b -> bookmarks_ok b.
Proof.
  unfold get_tab_info. destruct (py_get "tab" (data node)); try done.
  destruct (py_or _ _) as [| | | |u| |]; try done.
  destruct (PyStr.nonempty (PyStr.strip u)) eqn:Hu; [|done].
  intros [= <-]. simpl. unfold good_bookmark.
  split; [|split; [by apply nonempty_true|split; apply strip_trimmed]].
  destruct (py_or _ _) as [| | | |ts| |]; try by apply nonempty_true.
  destruct (PyStr.nonempty (PyStr.strip ts)) eqn:Hts; by apply nonempty_true.
Qed.

Lemma get_tab_info_title_fallback node tab t u :
  py_get "tab" (data node) = JObj tab ->
  get_tab_info node = Some (Bookmark t u) ->
  ~ holds_title_string node tab ->
  t = u.
Proof.
  unfold get_tab_info. intros -> H Hno.
  destruct (py_or (py_or (py_get "savedURL" tab) _) _) as [| | | |url| |]; try done.
  destruct (PyStr.nonempty (PyStr.strip url)); [|done].
  injection H as <- <-.
  assert (forall s, py_get "savedTitle" tab = JStr s -> s = "") as H1.
  { intros s Hs. destruct (decide (s = "")); [done|]. destruct Hno. exists s. tauto. }
  assert (forall s, py_get "title" tab = JStr s -> s = "") as H2.
  { intros s Hs. destruct (decide (s = "")); [done|]. destruct Hno. exists s. tauto. }
  assert (forall s, title node = Some s -> s = "") as H3.
  { intros s Hs. destruct (decide (s = "")); [done|]. destruct Hno. exists s. tauto. }
  unfold py_or.
  destruct (py_get "savedTitle" tab) as [| | | |s1| |] eqn:E1; simpl;
    try (rewrite (H1 s1 eq_refl); simpl);
    repeat match goal with |- context [if ?b then _ else _] => destruct b; simpl end;
    try done.
  all: destruct (py_get "title" tab) as [| | | |s2| |] eqn:E2; simpl;
    try (rewrite (H2 s2 eq_refl); simpl);
    repeat match goal with |- context [if ?b then _ else _] => destruct b; simpl end;
    try done.
  all: destruct (title node) as [s3|] eqn:E3; simpl; try (rewrite (H3 s3 eq_refl)); done.
Qed.

Lemma bind_Ret {A B} (m : res A) (f : A -> res B) b :
  m ≫= f = Ret b -> exists a, m = Ret a /\ f a = Ret b.
Proof. destruct m; simpl; [eauto|done..]. Qed.

Ltac inv_bind H :=
  let a := fresh "a" in
  let Ha := fresh "Ha" in
  apply bind_Ret in H; destruct H as (a & Ha & H).

Lemma add_child_good child st :
  (forall t, child = Some t -> bookmarks_ok t) ->
  Forall bookmarks_ok st.1 -> Forall bookmarks_ok (add_child child st).1.
Proof.
  intros Hc Hst. destruct child as [[t u|t c]|]; simpl; [| |done].
  - case_decide; [done|]. simpl. apply Forall_app. split; [done|].
    constructor; [|constructor]. by apply Hc.
  - apply Forall_app. split; [done|]. constructor; [|constructor]. by apply Hc.
Qed.

Lemma child_loop_good rec ids :
  (forall id V r V', rec id V = Ret (r, V') -> forall t, r = Some t -> bookmarks_ok t) ->
  forall st V st' V', child_loop rec ids st V = Ret (st', V') ->
  Forall bookmarks_ok st.1 -> Forall bookmarks_ok st'.1.
Proof.
  intros Hrec. induction ids as [|id ids IH]; intros st V st' V' H Hst; simpl in H.
  - by injection H as <- <-.
  - inv_bind H. destruct a as [child V1]. eapply IH; [exact H|].
    apply add_child_good; [|done]. eauto.
Qed.

Lemma build_tree_good nodes cm fuel : forall id V r V',
  build_tree fuel nodes cm id V = Ret (r, V') -> forall t, r = Some t -> bookmarks_ok t.
Proof.
  induction fuel as [|fuel IH]; intros id V r V' H t ->; [done|]. simpl in H.
  case_decide; [done|].
  destruct (dict_get id nodes) as [node|]; [|done].
  destruct (get_tab_info node) as [b|] eqn:Htab.
  { inv_bind H. injection H as <- <-. by eapply get_tab_info_good. }
  destruct (negb (is_folder_like node) && _).
  { inv_bind H. done. }
  inv_bind H. destruct a as [[c seen] V1]. inv_bind H. injection H as <- <-.
  apply bookmarks_ok_folder.
  eapply (child_loop_good _ _ IH _ _ (c, seen)); [exact Ha|simpl; constructor].
Qed.

Lemma top_loop_cons nodes cm id ids st :
  top_loop nodes cm (id :: ids) st
  = build_tree (depth_bound nodes) nodes cm id ∅
    ≫= fun r => top_loop nodes cm ids (add_child r.1 st).
Proof. cbn [top_loop]. by destruct (build_tree _ _ _ _ _) as [[]| |]. Qed.

Lemma top_loop_good nodes cm ids : forall st st',
  top_loop nodes cm ids st = Ret st' ->
  Forall bookmarks_ok st.1 -> Forall bookmarks_ok st'.1.
Proof.
  induction ids as [|id ids IH]; intros st st' H Hst.
  - by injection H as <-.
  - rewrite top_loop_cons in H. inv_bind H. destruct a as [child V1]. eapply IH; [exact H|].
    apply add_child_good; [|done]. simpl. intros t ->.
    eapply build_tree_good; [exact Ha|done].
Qed.

Lemma build_children_good ids nodes cm c :
  build_children_from_ids ids nodes cm = Ret c -> Forall bookmarks_ok c.
Proof.
  unfold build_children_from_ids. intros H. inv_bind H. destruct a as [c' seen].
  injection H as <-. eapply (top_loop_good _ _ _ _ (c', seen)); [exact Ha|simpl; constructor].
Qed.

Section Forest.
Variable set_iter : gset string -> list string.
Variable py_repr : json -> string.

Lemma space_step_good nodes cm iu st i space st' :
  space_step set_iter py_repr nodes cm iu st i space = Ret st' ->
  Forall bookmarks_ok (space_nodes st) -> Forall bookmarks_ok (space_nodes st').
Proof.
  intros H Hst. destruct space; simpl in H; try by injection H as <-.
  destruct (bool_decide _ && _); [by injection H as <-|].
  destruct (extract_space_roots _ _ _); [by injection H as <-|].
  inv_bind H. destruct a as [|x c]; injection H as <-; [done|]. simpl.
  apply Forall_app. split; [done|]. constructor; [|constructor].
  apply bookmarks_ok_folder. by eapply build_children_good.
Qed.

Lemma space_loop_good nodes cm iu spaces : forall st st',
  space_loop set_iter py_repr nodes cm iu spaces st = Ret st' ->
  Forall bookmarks_ok (space_nodes st) -> Forall bookmarks_ok (space_nodes st').
Proof.
  induction spaces as [|[i sp] spaces IH]; intros st st' H Hst; simpl in H.
  - by injection H as <-.
  - inv_bind H. eapply IH; [exact H|]. by eapply space_step_good.
Qed.

Lemma wrap_roots_good ids nodes cm i top :
  wrap_roots ids nodes cm i = Ret top -> Forall bookmarks_ok top.
Proof.
  unfold wrap_roots. intros H. inv_bind H.
  destruct a as [|x c]; injection H as <-; [constructor|].
  constructor; [|constructor]. apply bookmarks_ok_folder. by eapply build_children_good.
Qed.

Lemma parse_container_good c i iu top d n :
  parse_container set_iter py_repr c i iu = Ret (top, d, n) -> Forall bookmarks_ok top.
Proof.
  unfold parse_container. intros H. inv_bind H. inv_bind H.
  destruct (find_list_for_key (JObj c) "spaces") as [[|sp spaces]|].
  - inv_bind H. injection H as <- _ _. by eapply wrap_roots_good.
  - inv_bind H. destruct (space_nodes a1) as [|f fs] eqn:Hf.
    + inv_bind H. injection H as <- _ _. by eapply wrap_roots_good.
    + inv_bind H. injection H as <- _ _. apply (Forall_app _ (f :: fs) a2). split.
      * rewrite <- Hf. eapply space_loop_good; [exact Ha1|simpl; constructor].
      * by eapply build_children_good.
  - inv_bind H. injection H as <- _ _. by eapply wrap_roots_good.
Qed.

Lemma container_step_good iu ac n st i c st' :
  container_step set_iter py_repr iu ac n st i c = Ret st' ->
  Forall bookmarks_ok st.1.1 -> Forall bookmarks_ok st'.1.1.
Proof.
  intros H Hst. destruct c; simpl in H; try by injection H as <-.
  destruct st as [[all dt] it]. inv_bind H. destruct a as [[cn dn] inc].
  apply parse_container_good in Ha.
  destruct cn as [|x cn]; [by injection H as <-|].
  destruct (ac && _); injection H as <-; simpl; apply Forall_app; (split; [done|]).
  - constructor; [|constructor]. by apply bookmarks_ok_folder.
  - done.
Qed.

Lemma container_loop_good iu ac n sel : forall st st',
  container_loop set_iter py_repr iu ac n sel st = Ret st' ->
  Forall bookmarks_ok st.1.1 -> Forall bookmarks_ok st'.1.1.
Proof.
  induction sel as [|[i c] sel IH]; intros st st' H Hst; simpl in H.
  - by injection H as <-.
  - inv_bind H. eapply IH; [exact H|]. by eapply container_step_good.
Qed.

(** C10: every Bookmark of the forest that [parse_arc_sidebar] returns
    has a non-empty title and a non-empty url, neither with whitespace
    at an end; and a Bookmark made while none of the tab's savedTitle,
    the tab's title and the node's title is a non-empty string has its
    url as title. *)
Theorem bookmarks_well_formed doc iu ac forest stats :
  parse_arc_sidebar set_iter py_repr doc iu ac = Ret (forest, stats) ->
  Forall bookmarks_ok forest /\
  (forall node tab t u,
      py_get "tab" (data node) = JObj tab ->
      get_tab_info node = Some (Bookmark t u) ->
      ~ holds_title_string node tab -> t = u).
Proof.
  intros H. split; [|apply get_tab_info_title_fallback].
  unfold parse_arc_sidebar in H. inv_bind H. destruct a as [[all dt] it].
  destruct (count_nodes all). injection H as <- _.
  eapply (container_loop_good _ _ _ _ _ (all, dt, it)); [exact Ha|simpl; constructor].
Qed.
End Forest.

Lemma bookmarks_well_formed_witness :
  Forall bookmarks_ok synthetic_forest /\
  (forall node tab t u,
      py_get "tab" (data node) = JObj tab ->
      get_tab_info node = Some (Bookmark t u) ->
      ~ holds_title_string node tab -> t = u).
Proof.
  eapply (bookmarks_well_formed elements (fun _ => "") synthetic_sidebar_data false false).
  vm_compute. reflexivity.
Defined.

(** ** Deduplication among siblings *)

Lemma drop_repeats_snoc l : forall earlier x,
  drop_repeats earlier (l ++ [x])
  = drop_repeats earlier l ++ (if repeats x (earlier ++ l) then [] else [x]).
Proof.
  induction l as [|y l IH]; intros earlier x; simpl.
  - by rewrite !app_nil_r.
  - rewrite IH, <- !app_assoc. done.
Qed.

Lemma add_child_absent st : add_child None st = st.
Proof. done. Qed.

Lemma add_child_step e x :
  add_child (Some x) (loop_state e) = loop_state (e ++ [x]).
Proof.
  unfold loop_state, dedup_siblings. rewrite drop_repeats_snoc, omap_app. simpl.
  destruct x as [t u|t c]; simpl.
  - unfold repeats. simpl. case_decide as Hin.
    + rewrite bool_decide_true by set_solver. rewrite app_nil_r. f_equal. set_solver.
    + rewrite bool_decide_false by set_solver. f_equal. set_solver.
  - rewrite app_nil_r. done.
Qed.

Lemma add_child_produced r e :
  add_child r (loop_state e) = loop_state (e ++ option_list r).
Proof.
  destruct r as [x|]; simpl.
  - apply add_child_step.
  - by rewrite app_nil_r.
Qed.

Lemma build_tree_ok nodes cm fuel id V :
  depth_bound nodes <= fuel ->
  exists r, build_tree fuel nodes cm id V = Ret (r, V).
Proof.
  intros Hfuel.
  destruct (build_ptree_ok nodes cm fuel id V) as (r & Hr & _).
  { pose proof (dict_keyset_size nodes).
    assert (size (dict_keyset nodes ∖ V) <= size (dict_keyset nodes)).
    { apply subseteq_size. set_solver. }
    unfold depth_bound in Hfuel. lia. }
  exists (erase <$> r). by rewrite build_tree_erase, Hr.
Qed.

Lemma child_loop_spec rec V ids :
  (forall id, exists r, rec id V = Ret (r, V)) ->
  forall e, child_loop rec ids (loop_state e) V
            = Ret (loop_state (e ++ omap (fun id => produced (rec id V)) ids), V).
Proof.
  intros Hrec. induction ids as [|id ids IH]; intros e; simpl.
  - by rewrite app_nil_r.
  - destruct (Hrec id) as [r Hr]. rewrite Hr. simpl.
    rewrite add_child_produced, IH. do 3 f_equal. rewrite <- app_assoc. f_equal.
    by destruct r.
Qed.

Lemma top_loop_spec nodes cm ids : forall e,
  top_loop nodes cm ids (loop_state e)
  = Ret (loop_state
           (e ++ omap (fun id => produced (build_tree (depth_bound nodes) nodes cm id ∅)) ids)).
Proof.
  induction ids as [|id ids IH]; intros e.
  - simpl. by rewrite app_nil_r.
  - rewrite top_loop_cons.
    destruct (build_tree_ok nodes cm (depth_bound nodes) id ∅) as [r Hr]; [lia|].
    rewrite Hr. simpl. rewrite add_child_produced, IH. do 2 f_equal.
    rewrite <- app_assoc. f_equal. rewrite Hr. by destruct r.
Qed.

Lemma build_children_from_ids_spec ids nodes cm :
  build_children_from_ids ids nodes cm
  = Ret (dedup_siblings
           (omap (fun id => produced (build_tree (depth_bound nodes) nodes cm id ∅)) ids)).
Proof.
  unfold build_children_from_ids.
  change ([], ∅) with (loop_state []). by rewrite top_loop_spec.
Qed.

Lemma build_tree_folder nodes cm id node V fuel :
  depth_bound nodes <= fuel ->
  dict_get id nodes = Some node ->
  id ∉ V ->
  get_tab_info node = None ->
  is_folder_like node = true \/ child_ids_of cm id ≠ [] ->
  build_tree (S fuel) nodes cm id V
  = Ret (Some (Folder (get_node_title node "Untitled Folder")
                 (dedup_siblings
                    (omap (fun c => produced (build_tree fuel nodes cm c ({[id]} ∪ V)))
                          (child_ids_of cm id)))), V).
Proof.
  intros Hfuel Hnode HV Htab Hf. simpl.
  rewrite decide_False by done. rewrite Hnode, Htab.
  fold (child_ids_of cm id).
  assert (negb (is_folder_like node) && negb (bool_decide (child_ids_of cm id ≠ [])) = false)
    as ->.
  { destruct Hf as [->|Hc]; [done|]. rewrite (bool_decide_true _ Hc).
    by destruct (is_folder_like node). }
  change ([], ∅) with (loop_state []).
  rewrite (child_loop_spec (build_tree fuel nodes cm) ({[id]} ∪ V)).
  - simpl. by rewrite set_remove_added.
  - intros c. by apply build_tree_ok.
Qed.

Lemma drop_repeats_folders l : forall earlier,
  filter (fun x => is_folder x = true) (drop_repeats earlier l)
  = filter (fun x => is_folder x = true) l.
Proof.
  induction l as [|x l IH]; intros earlier; simpl; [done|].
  rewrite filter_app, IH.
  destruct x as [t u|t c].
  - rewrite (filter_cons_False _ (Bookmark t u) l) by done.
    destruct (repeats _ _); [done|]. by rewrite filter_cons_False.
  - rewrite (filter_cons_True _ (Folder t c) l) by done.
    unfold repeats. cbn [tab_key]. by rewrite filter_cons_True.
Qed.

Lemma drop_repeats_sublist l : forall earlier, sublist (drop_repeats earlier l) l.
Proof.
  induction l as [|x l IH]; intros earlier; simpl; [done|].
  destruct (repeats x earlier); simpl.
  - by apply sublist_cons.
  - by apply sublist_skip.
Qed.

Lemma drop_repeats_keys l : forall earlier,
  NoDup (omap tab_key (drop_repeats earlier l)) /\
  (forall k, k ∈ omap tab_key (drop_repeats earlier l) ->
             k ∈ omap tab_key l /\ k ∉ omap tab_key earlier).
Proof.
  induction l as [|x l IH]; intros earlier; simpl.
  - split; [constructor|]. intros k Hk. by apply elem_of_nil in Hk.
  - destruct (IH (earlier ++ [x])) as [Hnd Hin].
    rewrite omap_app in Hin. simpl in Hin.
    unfold repeats. destruct x as [t u|t c]; simpl in *.
    + case_bool_decide as Hrep; simpl.
      * split; [done|]. intros k Hk. apply Hin in Hk. set_solver.
      * split.
        { constructor; [|done]. intros Hk. apply Hin in Hk. set_solver. }
        intros k Hk. apply elem_of_cons in Hk as [->|Hk]; [set_solver|].
        apply Hin in Hk. set_solver.
    + split; [done|]. intros k Hk. apply Hin in Hk. set_solver.
Qed.

Lemma drop_repeats_first l : forall earlier k,
  k ∈ omap tab_key l -> k ∉ omap tab_key earlier ->
  k ∈ omap tab_key (drop_repeats earlier l).
Proof.
  induction l as [|x l IH]; intros earlier k Hk Hne; simpl in *.
  - done.
  - rewrite omap_app.
    destruct (decide (tab_key x = Some k)) as [Hx|Hx].
    + unfold repeats. rewrite Hx. rewrite bool_decide_false by done.
      simpl. rewrite Hx. set_solver.
    + apply elem_of_app. right. apply IH.
      * destruct (tab_key x); set_solver.
      * rewrite omap_app. simpl. destruct (tab_key x); set_solver.
Qed.

Lemma drop_repeats_app l1 : forall earlier l2,
  drop_repeats earlier (l1 ++ l2)
  = drop_repeats earlier l1 ++ drop_repeats (earlier ++ l1) l2.
Proof.
  induction l1 as [|x l1 IH]; intros earlier l2; simpl.
  - by rewrite app_nil_r.
  - by rewrite IH, <- !app_assoc.
Qed.

Example twin_tabs_collapse :
  build_tree 6 twin_nodes twin_children "f" ∅
  = Ret (Some (Folder "F" [Bookmark "Example" "https://example.com";
                           Folder "G" [Bookmark "Example" "https://example.com"]]), ∅).
Proof. vm_compute. reflexivity. Qed.

(** C3: the children of a folder are the results of its child ids in
    order, less every Bookmark equal to a Bookmark produced earlier for
    the same folder; the same holds for a top-level expansion; a Folder
    is never dropped, so equal Bookmarks under two folders both stay. *)
Theorem sibling_dedup nodes cm id node V fuel :
  depth_bound nodes <= fuel ->
  dict_get id nodes = Some node ->
  id ∉ V ->
  get_tab_info node = None ->
  is_folder_like node = true \/ child_ids_of cm id ≠ [] ->
  build_tree (S fuel) nodes cm id V
  = Ret (Some (Folder (get_node_title node "Untitled Folder")
                 (dedup_siblings
                    (omap (fun c => produced (build_tree fuel nodes cm c ({[id]} ∪ V)))
                          (child_ids_of cm id)))), V) /\
  (forall ids,
      build_children_from_ids ids nodes cm
      = Ret (dedup_siblings
               (omap (fun i => produced (build_tree (depth_bound nodes) nodes cm i ∅)) ids))) /\
  (forall l1 x l2,
      dedup_siblings (l1 ++ x :: l2)
      = dedup_siblings l1 ++ (if repeats x l1 then [] else [x])
        ++ drop_repeats (l1 ++ [x]) l2) /\
  (forall l,
      filter (fun x => is_folder x = true) (dedup_siblings l)
      = filter (fun x => is_folder x = true) l /\
      sublist (dedup_siblings l) l /\
      NoDup (omap tab_key (dedup_siblings l)) /\
      (forall k, k ∈ omap tab_key (dedup_siblings l) <-> k ∈ omap tab_key l)) /\
  (forall a ca b cb,
      dedup_siblings [Folder a ca; Folder b cb] = [Folder a ca; Folder b cb]).
Proof.
  intros Hfuel Hnode HV Htab Hf.
  split; [by apply build_tree_folder|].
  split; [intros ids; apply build_children_from_ids_spec|].
  split; [intros l1 x l2; unfold dedup_siblings; by rewrite drop_repeats_app|].
  split; [|done].
  intros l. unfold dedup_siblings.
  split; [apply drop_repeats_folders|].
  split; [apply drop_repeats_sublist|].
  split; [apply drop_repeats_keys|].
  intros k. split.
  - intros Hk. by apply drop_repeats_keys in Hk as [Hk _].
  - intros Hk. apply drop_repeats_first; [done|]. simpl. apply not_elem_of_nil.
Qed.

Lemma sibling_dedup_witness :
  build_tree 7 twin_nodes twin_children "f" ∅
  = Ret (Some (Folder (get_node_title (mkArcNode "f" JNull (Some "F") [("list", JObj [])] 0)
                         "Untitled Folder")
                 (dedup_siblings
                    (omap (fun c => produced (build_tree 6 twin_nodes twin_children c
                                                ({["f"]} ∪ ∅)))
                          (child_ids_of twin_children "f")))), ∅).
Proof.
  apply (sibling_dedup twin_nodes twin_children "f"
           (mkArcNode "f" JNull (Some "F") [("list", JObj [])] 0) ∅ 6).
  - vm_compute. lia.
  - reflexivity.
  - set_solver.
  - reflexivity.
  - left. reflexivity.
Defined.

Example cycle_is_cut :
  build_ptree 3 cycle_nodes cycle_children "A" ∅
  = Ret (Some (PFolder "A" "A" [PFolder "B" "B" []]), ∅).
Proof. vm_compute. reflexivity. Qed.

Lemma build_tree_terminates_witness :
  (exists r : option ptree,
      build_ptree 3 cycle_nodes cycle_children "A" ∅ = Ret (r, ∅) /\
      build_tree 3 cycle_nodes cycle_children "A" ∅ = Ret (erase <$> r, ∅) /\
      (forall t, r = Some t -> path_distinct ∅ t)) /\
  (forall n V', "A" ∈ V' -> build_tree (S n) cycle_nodes cycle_children "A" V' = Ret (None, V')).
Proof.
  apply (build_tree_terminates cycle_nodes cycle_children "A" ∅ 3).
  vm_compute. lia.
Defined.

(** ** Structural locator *)

Lemma json_ind (P : json -> Prop) :
  P JNull -> (forall b, P (JBool b)) -> (forall z, P (JInt z)) ->
  (forall f, P (JFloat f)) -> (forall s, P (JStr s)) ->
  (forall l, Forall P l -> P (JArr l)) ->
  (forall d, Forall (fun kv => P (snd kv)) d -> P (JObj d)) ->
  forall v, P v.
Proof.
  intros Hn Hb Hz Hf Hs Ha Ho. fix IH 1. intros [|b|z|f|s|l|d].
  - exact Hn.
  - exact (Hb b).
  - exact (Hz z).
  - exact (Hf f).
  - exact (Hs s).
  - apply Ha. induction l as [|x l IHl]; constructor; [apply IH|apply IHl].
  - apply Ho. induction d as [|[k x] d IHd]; constructor; [apply IH|apply IHd].
Qed.

Lemma first_some_head {A B} (f : A -> option B) (g : A -> list B) l :
  Forall (fun x => f x = head (g x)) l ->
  first_some f l = head (flat_map g l).
Proof.
  induction 1 as [|x l Hx _ IH]; simpl; [done|].
  rewrite Hx, IH. by destruct (g x).
Qed.

Lemma find_containers_anywhere_head v :
  find_containers_anywhere v = head (containers_lists v).
Proof.
  induction v as [| | | | |l IH|d IH] using json_ind; try done.
  - simpl. by apply first_some_head.
  - simpl. destruct (py_get "containers" d); simpl; try done;
      by apply (first_some_head (fun kv => find_containers_anywhere kv.2)
                                (fun kv => containers_lists kv.2)).
Qed.

Lemma extract_containers_eq doc :
  extract_containers doc
  = match list_at ["sidebar"; "containers"] (root_of doc) with
    | Some l => l
    | None =>
        match head (containers_lists (root_of doc)) with
        | Some l => l
        | None => []
        end
    end.
Proof.
  unfold extract_containers, list_at, root_of.
  rewrite find_containers_anywhere_head.
  destruct (match dict_get "root" doc with Some r => r | None => JObj doc end)
    as [| | | | | |r]; try done.
  simpl. unfold py_get at 1.
  destruct (dict_get "sidebar" r) as [[| | | | | |sb]|]; try done.
  unfold py_get at 1.
  destruct (dict_get "containers" sb) as [[| | | | | |]|]; done.
Qed.

(** C5, as the code has it: the list at [sidebar.containers] of the root
    value when there is one; else the first list under a key
    [containers] in a depth-first walk of the root value; else the
    empty list. The root value is the document's [root] entry when the
    document has one, and the document otherwise. *)
Theorem extract_containers_spec doc :
  extract_containers doc
  = match list_at ["sidebar"; "containers"] (root_of doc) with
    | Some l => l
    | None =>
        match head (containers_lists (root_of doc)) with
        | Some l => l
        | None => []
        end
    end.
Proof. apply extract_containers_eq. Qed.

(** C5 as worded fails: a list under [containers] outside the [root]
    entry is in the document, and is not found. *)
Lemma extract_containers_counterexample :
  list_at ["root"; "sidebar"; "containers"] (JObj stray_containers_doc) = None /\
  head (containers_lists (JObj stray_containers_doc)) = Some [JInt 1] /\
  extract_containers stray_containers_doc = [] /\
  extract_containers stray_containers_doc
  ≠ match head (containers_lists (JObj stray_containers_doc)) with
    | Some l => l
    | None => []
    end.
Proof. repeat split. discriminate. Qed.

(** ** Documents without containers *)

Lemma has_key_dict k d :
  has_key k (JObj d) = false ->
  dict_get k d = None /\ forall k' v, dict_get k' d = Some v -> has_key k v = false.
Proof.
  induction d as [|[k1 v1] d IH]; simpl; [done|].
  intros H. apply orb_false_iff in H as [H1 H2]. apply orb_false_iff in H1 as [Hk Hv].
  destruct (IH H2) as [IH1 IH2]. rewrite Hk. split; [done|].
  intros k' v. destruct (String.eqb k' k1); [intros [= <-]; exact Hv|]. apply IH2.
Qed.

Lemma has_key_containers_lists v :
  has_key "containers" v = false -> containers_lists v = [].
Proof.
  induction v as [| | | | |l IH|d IH] using json_ind; try done.
  - simpl. induction IH as [|x l Hx _ IHl]; simpl; [done|].
    intros H. apply orb_false_iff in H as [H1 H2]. by rewrite Hx, IHl.
  - intros H. destruct (has_key_dict _ _ H) as [Hget _]. simpl.
    unfold py_get. rewrite Hget. simpl. clear Hget. simpl in H. revert H.
    induction IH as [|[k x] d Hx _ IHd]; simpl; [done|].
    intros H. apply orb_false_iff in H as [H1 H2]. apply orb_false_iff in H1 as [Hk Hv].
    simpl in Hx. by rewrite Hx, IHd.
Qed.

Lemma no_containers_extract doc :
  has_key "containers" (JObj doc) = false -> extract_containers doc = [].
Proof.
  intros H. rewrite extract_containers_eq.
  assert (has_key "containers" (root_of doc) = false) as Hroot.
  { unfold root_of. destruct (dict_get "root" doc) eqn:E; [|done].
    by apply (has_key_dict _ _ H) in E. }
  rewrite (has_key_containers_lists _ Hroot). simpl.
  unfold list_at. simpl.
  destruct (root_of doc) as [| | | | | |r]; try done.
  destruct (dict_get "sidebar" r) as [sb|] eqn:Hsb; [|done].
  apply (has_key_dict _ _ Hroot) in Hsb.
  destruct sb as [| | | | | |sb]; try done.
  destruct (has_key_dict _ _ Hsb) as [-> _]. done.
Qed.

Section Empty.
Variable set_iter : gset string -> list string.
Variable py_repr : json -> string.

(** C9, as the code has it: on a document that is a mapping with no
    key [containers] anywhere, the core function returns the empty
    forest with every counter at zero, and [main] ends with the
    nothing-exportable failure, exit code 2. *)
Theorem no_containers_empty_result doc iu ac write_ok :
  has_key "containers" (JObj doc) = false ->
  parse_arc_sidebar set_iter py_repr doc iu ac = Ret ([], mkExportStats 0 0 0 0 0 0) /\
  main_after_load set_iter py_repr doc iu ac write_ok = Ret NothingExportable /\
  exit_code NothingExportable = 2%Z /\
  parse_loaded set_iter py_repr (JObj doc) iu ac = Ret ([], mkExportStats 0 0 0 0 0 0) /\
  main_loaded set_iter py_repr (JObj doc) iu ac write_ok = Ret NothingExportable.
Proof.
  intros H. unfold main_loaded, parse_loaded, main_after_load, parse_arc_sidebar.
  rewrite (no_containers_extract _ H). done.
Qed.

End Empty.

Lemma no_containers_empty_result_witness :
  parse_arc_sidebar elements (fun _ => "") [("version", JInt 1); ("tabs", JArr [JObj [("id", JStr "x")]])]
    false false = Ret ([], mkExportStats 0 0 0 0 0 0) /\
  main_after_load elements (fun _ => "") [("version", JInt 1); ("tabs", JArr [JObj [("id", JStr "x")]])]
    false false true = Ret NothingExportable /\
  exit_code NothingExportable = 2%Z /\
  parse_loaded elements (fun _ => "")
    (JObj [("version", JInt 1); ("tabs", JArr [JObj [("id", JStr "x")]])])
    false false = Ret ([], mkExportStats 0 0 0 0 0 0) /\
  main_loaded elements (fun _ => "")
    (JObj [("version", JInt 1); ("tabs", JArr [JObj [("id", JStr "x")]])])
    false false true = Ret NothingExportable.
Proof.
  apply (no_containers_empty_result elements (fun _ => "")
           [("version", JInt 1); ("tabs", JArr [JObj [("id", JStr "x")]])] false false true).
  reflexivity.
Defined.

(** C9 as worded fails: a document that is a sequence has no key
    [containers] anywhere, and the core function raises on it; [main]
    does not catch that, so it does not end with exit code 2. *)
Lemma no_containers_counterexample :
  has_key "containers" sequence_doc = false /\
  parse_loaded elements (fun _ => "") sequence_doc false false = Raise AttributeError /\
  main_loaded elements (fun _ => "") sequence_doc false false true = Raise AttributeError.
Proof. repeat split. Qed.

(** ** Root ids of a space *)

Lemma insert_by_perm {A} (key : A -> Z) x l : insert_by key x l ≡ₚ x :: l.
Proof.
  induction l as [|y l IH]; simpl; [done|].
  destruct (key x <=? key y)%Z; [done|]. rewrite IH. apply Permutation_swap.
Qed.

Lemma sorted_by_perm {A} (key : A -> Z) l : sorted_by key l ≡ₚ l.
Proof.
  induction l as [|x l IH]; simpl; [done|]. by rewrite insert_by_perm, IH.
Qed.

Lemma insert_by_sorted {A} (key : A -> Z) x l :
  StronglySorted (fun a b => (key a <= key b)%Z) l ->
  StronglySorted (fun a b => (key a <= key b)%Z) (insert_by key x l).
Proof.
  induction 1 as [|y l Hs IH Hy]; simpl.
  - repeat constructor.
  - destruct (Z.leb_spec (key x) (key y)) as [Hle|Hgt].
    + constructor; [by constructor|]. constructor; [done|].
      eapply Forall_impl; [exact Hy|]. simpl. intros z Hz. lia.
    + constructor; [done|]. rewrite insert_by_perm. constructor; [lia|done].
Qed.

Lemma sorted_by_sorted {A} (key : A -> Z) l :
  StronglySorted (fun a b => (key a <= key b)%Z) (sorted_by key l).
Proof.
  induction l as [|x l IH]; simpl; [constructor|]. by apply insert_by_sorted.
Qed.







Example roots_of_space :
  extract_space_roots elements roots_space cycle_nodes = ["A"; "B"].
Proof. vm_compute. reflexivity. Qed.

Example roots_by_scan_only :
  direct_ids scan_space = [] /\
  extract_space_roots elements scan_space cycle_nodes = ["A"].
Proof. vm_compute. split; reflexivity. Qed.


(** ** Parents and roots *)


Lemma dict_set_keys {V} k (v : V) d :
  dict_keys (dict_set k v d) = if dict_mem k d then dict_keys d else dict_keys d ++ [k].
Proof.
  unfold dict_mem. induction d as [|[k' v'] d IH]; simpl; [done|].
  destruct (String.eqb_spec k k') as [->|Hne]; simpl; [done|].
  rewrite IH. by destruct (dict_get k d).
Qed.

Lemma dict_mem_keys {V} k (d : dict V) : dict_mem k d = true <-> k ∈ dict_keys d.
Proof.
  unfold dict_mem. induction d as [|[k' v'] d IH]; simpl.
  - split; [done|]. by intros ?%elem_of_nil.
  - destruct (String.eqb_spec k k') as [->|Hne].
    + split; [|done]. intros _. apply list_elem_of_here.
    + rewrite IH. split; [by apply list_elem_of_further|].
      intros [?|?]%elem_of_cons; done.
Qed.

Lemma dict_set_ok k n nodes : node_id n = k -> table_ok nodes -> table_ok (dict_set k n nodes).
Proof.
  intros Hk [Hnd Hall]. split.
  - rewrite dict_set_keys. destruct (dict_mem k nodes) eqn:E; [done|].
    apply NoDup_app. split; [done|]. split; [|apply NoDup_singleton].
    intros x Hx ->%list_elem_of_singleton. apply dict_mem_keys in Hx. congruence.
  - clear Hnd. induction Hall as [|[k' n'] d Hx Hd IH]; simpl.
    + by repeat constructor.
    + destruct (String.eqb_spec k k') as [->|Hne]; constructor; done.
Qed.

Lemma build_nodes_ok items : forall nodes, table_ok nodes -> table_ok (build_nodes items nodes).
Proof.
  induction items as [|[i item] items IH]; intros nodes Hok; simpl; [done|].
  destruct (item_node i item) as [n|]; apply IH; [|done]. by apply dict_set_ok.
Qed.

Lemma nodes_of_ok items : table_ok (nodes_of items).
Proof. apply build_nodes_ok. split; [constructor|constructor]. Qed.

Lemma dict_get_elem {V} k (v : V) d : dict_get k d = Some v -> (k, v) ∈ d.
Proof.
  induction d as [|[k' v'] d IH]; simpl; [done|].
  destruct (String.eqb_spec k k') as [->|Hne].
  - intros [= ->]. apply list_elem_of_here.
  - intros H. by apply list_elem_of_further, IH.
Qed.

Lemma elem_dict_get {V} k (v : V) d : NoDup (dict_keys d) -> (k, v) ∈ d -> dict_get k d = Some v.
Proof.
  induction d as [|[k' v'] d IH]; simpl; [by intros _ ?%elem_of_nil|].
  intros [Hk Hnd]%NoDup_cons Hin. apply elem_of_cons in Hin as [[= <- <-]|Hin].
  - by rewrite String.eqb_refl.
  - destruct (String.eqb_spec k k') as [->|Hne]; [|by apply IH].
    destruct Hk. unfold dict_keys. apply list_elem_of_fmap. by exists (k', v).
Qed.

(** The node of the table with a given id is the one stored under it. *)
Lemma table_node_unique nodes n n' :
  table_ok nodes -> n ∈ dict_values nodes -> dict_get (node_id n) nodes = Some n' -> n = n'.
Proof.
  intros [Hnd Hall] Hin Hget. unfold dict_values in Hin.
  apply list_elem_of_fmap in Hin as ([k x] & -> & Hin). simpl in *.
  rewrite Forall_forall in Hall. pose proof (Hall _ Hin) as Hk. simpl in Hk.
  rewrite Hk in Hget. rewrite (elem_dict_get _ _ _ Hnd Hin) in Hget. congruence.
Qed.







(** ** The pin filter *)

Lemma first_some_map {A B C} (f : B -> option C) (g : A -> B) l :
  first_some f (map g l) = first_some (fun x => f (g x)) l.
Proof. induction l as [|x l IH]; simpl; [done|]. by rewrite IH. Qed.

Lemma first_some_app {A B} (f : A -> option B) l1 l2 :
  first_some f (l1 ++ l2)
  = match first_some f l1 with Some r => Some r | None => first_some f l2 end.
Proof. induction l1 as [|x l1 IH]; simpl; [done|]. by destruct (f x). Qed.

Lemma space_is_pinned_first sp : space_is_pinned sp = first_boolean (pin_values sp).
Proof.
  unfold space_is_pinned, first_boolean, pin_values.
  rewrite first_some_app, first_some_map.
  destruct (first_some _ pin_keys); [done|].
  destruct (py_get "data" sp); done.
Qed.

Lemma build_children_from_ids_expand ids nodes cm :
  build_children_from_ids ids nodes cm = Ret (expand nodes cm ids).
Proof. apply build_children_from_ids_spec. Qed.

Lemma expand_nil nodes cm : expand nodes cm [] = [].
Proof. done. Qed.

Section Pin.
Variable set_iter : gset string -> list string.
Variable py_repr : json -> string.

Lemma space_step_included nodes cm iu st i sp :
  (bool_decide (space_is_pinned sp = Some false) && negb iu) = false ->
  space_step set_iter py_repr nodes cm iu st i (JObj sp)
  = Ret (match expand nodes cm (extract_space_roots set_iter sp nodes) with
         | [] => st
         | _ => include_space set_iter py_repr nodes cm st i sp
         end).
Proof.
  intros Hpin. unfold space_step. rewrite Hpin.
  destruct (extract_space_roots set_iter sp nodes) as [|r roots] eqn:Hroots.
  - by rewrite expand_nil.
  - rewrite build_children_from_ids_expand. simpl.
    unfold include_space. rewrite Hroots. by destruct (expand _ _ _).
Qed.

(** C7: a space whose first boolean among the pin keys (on the space,
    then on its [data] mapping) is false changes nothing when unpinned
    spaces are not asked for; a space with no boolean under these keys
    is handled the same with and without the option: it is included as
    soon as its roots expand to at least one child. *)
Theorem pin_filter nodes cm st i sp :
  (first_boolean (pin_values sp) = Some false ->
   space_step set_iter py_repr nodes cm false st i (JObj sp) = Ret st /\
   space_yield set_iter py_repr nodes cm false (i, JObj sp) = None) /\
  (first_boolean (pin_values sp) = None ->
   forall iu,
     space_step set_iter py_repr nodes cm iu st i (JObj sp)
     = Ret (match expand nodes cm (extract_space_roots set_iter sp nodes) with
            | [] => st
            | _ => include_space set_iter py_repr nodes cm st i sp
            end)).
Proof.
  rewrite <- space_is_pinned_first. split.
  - intros Hpin. unfold space_step, space_yield. simpl. by rewrite Hpin.
  - intros Hpin iu. apply space_step_included. by rewrite Hpin.
Qed.

End Pin.

Lemma pin_filter_witness :
  (space_step elements (fun _ => "") cycle_nodes cycle_children false
     (mkSpaceState [] ∅ 0) 0 (JObj unpinned_space) = Ret (mkSpaceState [] ∅ 0) /\
   space_yield elements (fun _ => "") cycle_nodes cycle_children false
     (0%nat, JObj unpinned_space) = None) /\
  (forall iu,
     space_step elements (fun _ => "") cycle_nodes cycle_children iu
       (mkSpaceState [] ∅ 0) 0 (JObj unmarked_space)
     = Ret (match expand cycle_nodes cycle_children
                    (extract_space_roots elements unmarked_space cycle_nodes) with
            | [] => mkSpaceState [] ∅ 0
            | _ => include_space elements (fun _ => "") cycle_nodes cycle_children
                     (mkSpaceState [] ∅ 0) 0 unmarked_space
            end)).
Proof.
  split.
  - apply (pin_filter elements (fun _ => "") cycle_nodes cycle_children
             (mkSpaceState [] ∅ 0) 0 unpinned_space). reflexivity.
  - apply (pin_filter elements (fun _ => "") cycle_nodes cycle_children
             (mkSpaceState [] ∅ 0) 0 unmarked_space). reflexivity.
Defined.

Example unmarked_space_included :
  space_step elements (fun _ => "") cycle_nodes cycle_children false
    (mkSpaceState [] ∅ 0) 0 (JObj unmarked_space)
  = Ret (mkSpaceState [Folder "Work" [Folder "A" [Folder "B" []]]] {["A"]} 1).
Proof. vm_compute. reflexivity. Qed.

(** ** The top level of a container *)

Section Container.
Variable set_iter : gset string -> list string.
Variable py_repr : json -> string.

Lemma space_step_yield nodes cm iu st i space :
  space_step set_iter py_repr nodes cm iu st i space
  = Ret (match space_yield set_iter py_repr nodes cm iu (i, space) with
         | Some (folder, roots) =>
             mkSpaceState (space_nodes st ++ [folder]) (used_ids st ∪ list_to_set roots)
               (S (included st))
         | None => st
         end).
Proof.
  unfold space_yield. simpl. destruct space as [| | | | | |sp]; try done.
  destruct (bool_decide _ && negb iu) eqn:Hpin.
  - unfold space_step. by rewrite Hpin.
  - rewrite space_step_included by done. unfold include_space.
    by destruct (expand _ _ _).
Qed.

Lemma space_loop_spec nodes cm iu spaces : forall st,
  space_loop set_iter py_repr nodes cm iu spaces st
  = Ret (mkSpaceState
           (space_nodes st ++ map fst (omap (space_yield set_iter py_repr nodes cm iu) spaces))
           (used_ids st ∪ claimed (omap (space_yield set_iter py_repr nodes cm iu) spaces))
           (included st + length (omap (space_yield set_iter py_repr nodes cm iu) spaces))).
Proof.
  induction spaces as [|[i space] spaces IH]; intros st.
  - simpl. unfold claimed. simpl. rewrite app_nil_r, Nat.add_0_r.
    destruct st. simpl. f_equal. f_equal. set_solver.
  - cbn [space_loop]. rewrite space_step_yield. simpl. rewrite IH.
    destruct (space_yield set_iter py_repr nodes cm iu (i, space)) as [[folder roots]|]; [|done].
    simpl. f_equal. f_equal.
    + by rewrite <- app_assoc.
    + unfold claimed. simpl. rewrite list_to_set_app_L. set_solver.
    + by rewrite Nat.add_succ_r.
Qed.

Lemma wrap_roots_spec root_ids nodes cm i :
  wrap_roots root_ids nodes cm i = Ret (top_level nodes cm root_ids i []).
Proof.
  unfold wrap_roots. rewrite build_children_from_ids_expand. simpl.
  by destruct (expand _ _ _).
Qed.


End Container.

Example spaced_container_top_level :
  parse_container elements (fun _ => "") spaced_container 0 false
  = Ret ([Folder "Work" [Folder "A" [Bookmark "t1" "https://a.example"]];
          Folder "C" [Bookmark "t2" "https://c.example"]], 3%nat, 1%nat).
Proof. vm_compute. reflexivity. Qed.

(** * Further properties of the code *)

(** ** The generic locator *)

Lemma find_list_for_key_head key v :
  find_list_for_key v key = head (lists_under key v).
Proof.
  induction v as [| | | | |l IH|d IH] using json_ind; try done.
  - simpl. by apply first_some_head.
  - simpl. destruct (dict_get key d) as [[| | | | | |]|]; simpl; try done;
      by apply (first_some_head (fun kv => find_list_for_key kv.2 key)
                                (fun kv => lists_under key kv.2)).
Qed.

Lemma has_key_lists_under key v : has_key key v = false -> lists_under key v = [].
Proof.
  induction v as [| | | | |l IH|d IH] using json_ind; try done.
  - simpl. induction IH as [|x l Hx _ IHl]; simpl; [done|].
    intros H. apply orb_false_iff in H as [H1 H2]. by rewrite Hx, IHl.
  - intros H. destruct (has_key_dict _ _ H) as [Hget _]. simpl.
    rewrite Hget. simpl. clear Hget. simpl in H. revert H.
    induction IH as [|[k x] d Hx _ IHd]; simpl; [done|].
    intros H. apply orb_false_iff in H as [H1 H2]. apply orb_false_iff in H1 as [Hk Hv].
    simpl in Hx. by rewrite Hx, IHd.
Qed.

(** X1: [find_list_for_key] returns the first list held under the key
    in the depth-first walk (a mapping's own entry before its values,
    values in insertion order, sequences by index); it returns nothing
    exactly when no mapping of the value holds a list under the key,
    and so whenever the key occurs nowhere. *)
Theorem find_list_for_key_first key v :
  find_list_for_key v key = head (lists_under key v) /\
  (find_list_for_key v key = None <-> lists_under key v = []) /\
  (has_key key v = false -> find_list_for_key v key = None).
Proof.
  rewrite find_list_for_key_head. split; [done|]. split.
  - by destruct (lists_under key v).
  - intros H. by rewrite (has_key_lists_under _ _ H).
Qed.

Lemma find_list_for_key_first_witness :
  find_list_for_key (JObj [("a", JArr [JObj [("b", JInt 1)]])]) "items" = None.
Proof.
  apply (find_list_for_key_first "items" (JObj [("a", JArr [JObj [("b", JInt 1)]])])).
  reflexivity.
Defined.

(** X2: the search for the containers list is the generic search at the
    key [containers]. *)
Theorem find_containers_anywhere_generic v :
  find_containers_anywhere v = find_list_for_key v "containers".
Proof.
  induction v as [| | | | |l IH|d IH] using json_ind; try done.
  - simpl. induction IH as [|x l Hx _ IHl]; simpl; [done|]. by rewrite Hx, IHl.
  - simpl. unfold py_get.
    assert (first_some (fun kv => find_containers_anywhere kv.2) d
            = first_some (fun kv => find_list_for_key kv.2 "containers") d) as ->.
    { induction IH as [|x l Hx _ IHl]; simpl; [done|]. simpl in Hx. by rewrite Hx, IHl. }
    by destruct (dict_get "containers" d) as [[| | | | | |]|].
Qed.

(** ** Container selection *)

Lemma enumerate_from_lookup {A} (l : list A) : forall n i x,
  (i, x) ∈ enumerate_from n l <-> (n <= i)%nat /\ l !! (i - n)%nat = Some x.
Proof.
  induction l as [|y l IH]; intros n i x; simpl.
  - split; [by intros ?%elem_of_nil|]. by intros [_ ?].
  - rewrite elem_of_cons, IH. split.
    + intros [[= -> ->]|[Hle Hl]].
      * split; [lia|]. by rewrite Nat.sub_diag.
      * split; [lia|]. replace (i - n)%nat with (S (i - S n)) by lia. done.
    + intros [Hle Hl]. destruct (decide (i = n)) as [->|Hne].
      * left. rewrite Nat.sub_diag in Hl. simpl in Hl. congruence.
      * right. split; [lia|]. replace (i - n)%nat with (S (i - S n)) in Hl by lia. done.
Qed.

Lemma enumerate_lookup {A} (l : list A) i x : (i, x) ∈ enumerate l <-> l !! i = Some x.
Proof.
  unfold enumerate. rewrite enumerate_from_lookup, Nat.sub_0_r.
  split; [by intros [_ ?]|]. intros H. split; [lia|done].
Qed.

Lemma enumerate_from_length {A} (l : list A) n : length (enumerate_from n l) = length l.
Proof. revert n. induction l as [|x l IH]; intros n; simpl; [done|]. by rewrite IH. Qed.

Lemma first_some_elem {A B} (f : A -> option B) l r :
  first_some f l = Some r -> exists x, x ∈ l /\ f x = Some r.
Proof.
  induction l as [|x l IH]; simpl; [done|].
  destruct (f x) eqn:E.
  - intros [= <-]. exists x. split; [apply list_elem_of_here|done].
  - intros H. destruct (IH H) as (y & Hy & Hf). exists y.
    split; [by apply list_elem_of_further|done].
Qed.

Lemma first_some_none {A B} (f : A -> option B) l :
  first_some f l = None <-> forall x, x ∈ l -> f x = None.
Proof.
  induction l as [|x l IH]; simpl.
  - split; [|done]. by intros _ x ?%elem_of_nil.
  - destruct (f x) eqn:E.
    + split; [done|]. intros H. specialize (H x (list_elem_of_here _ _)). congruence.
    + rewrite IH. split.
      * intros H y [->|Hy]%elem_of_cons; [done|by apply H].
      * intros H y Hy. by apply H, list_elem_of_further.
Qed.

Lemma first_with_items_some cs : forall n r,
  first_some (fun ic : nat * json =>
                if nonempty_list (find_list_for_key ic.2 "items") then Some [ic] else None)
             (enumerate_from n cs) = Some r ->
  exists i c, r = [(i, c)] /\ (n <= i)%nat /\ cs !! (i - n)%nat = Some c /\
              has_items c = true /\
              forall j c', (j < i - n)%nat -> cs !! j = Some c' -> has_items c' = false.
Proof.
  induction cs as [|c0 cs IH]; intros n r; simpl; [done|].
  fold (has_items c0). destruct (has_items c0) eqn:E0.
  - intros [= <-]. exists n, c0. rewrite Nat.sub_diag. repeat split; try done. lia.
  - intros H. destruct (IH _ _ H) as (i & c & -> & Hle & Hl & Hc & Hprev).
    exists i, c. split; [done|]. split; [lia|].
    replace (i - n)%nat with (S (i - S n)) by lia. split; [done|]. split; [done|].
    intros [|j] c' Hj; simpl; [by intros [= <-]|]. apply Hprev. lia.
Qed.

Lemma first_with_items_none cs : forall n,
  first_some (fun ic : nat * json =>
                if nonempty_list (find_list_for_key ic.2 "items") then Some [ic] else None)
             (enumerate_from n cs) = None ->
  forall c, c ∈ cs -> has_items c = false.
Proof.
  induction cs as [|c0 cs IH]; intros n; simpl; [by intros _ c ?%elem_of_nil|].
  fold (has_items c0). destruct (has_items c0) eqn:E0; [done|].
  intros H c [->|Hc]%elem_of_cons; [done|]. by eapply IH.
Qed.

(** The selection without [all_containers], for a list that is not empty. *)
Lemma select_one cs :
  cs ≠ [] ->
  exists i c, select_containers cs false = [(i, c)] /\ cs !! i = Some c /\
    ((has_items c = true /\
      ((i = 1%nat /\ exists d, c = JObj d) \/
       forall j c', (j < i)%nat -> cs !! j = Some c' -> has_items c' = false)) \/
     (i = 0%nat /\ forall c', c' ∈ cs -> has_items c' = false)).
Proof.
  destruct cs as [|c0 cs]; [done|]. intros _.
  assert (exists i c,
             match first_some
                     (fun ic : nat * json =>
                        if nonempty_list (find_list_for_key ic.2 "items") then Some [ic]
                        else None)
                     (enumerate (c0 :: cs)) with
             | Some r => r
             | None => [(0%nat, c0)]
             end = [(i, c)] /\ (c0 :: cs) !! i = Some c /\
             ((has_items c = true /\
               ((i = 1%nat /\ exists d, c = JObj d) \/
                forall j c', (j < i)%nat -> (c0 :: cs) !! j = Some c' -> has_items c' = false)) \/
              (i = 0%nat /\ forall c', c' ∈ c0 :: cs -> has_items c' = false))) as Hloop.
  { destruct (first_some _ (enumerate (c0 :: cs))) as [r|] eqn:E.
    - apply first_with_items_some in E as (i & c & -> & _ & Hl & Hc & Hprev).
      rewrite Nat.sub_0_r in Hl, Hprev. exists i, c. split; [done|]. split; [done|].
      left. split; [done|]. by right.
    - exists 0%nat, c0. split; [done|]. split; [done|]. right. split; [done|].
      by apply (first_with_items_none _ 0%nat). }
  unfold select_containers.
  destruct cs as [|c1 cs']; [exact Hloop|].
  destruct c1 as [| | | | | |d1]; try exact Hloop.
  fold (has_items (JObj d1)). destruct (has_items (JObj d1)) eqn:E1; [|exact Hloop].
  exists 1%nat, (JObj d1). split; [done|]. split; [done|]. left. split; [done|].
  left. eauto.
Qed.





(** ** The recursive key scan covers the direct keys *)

Lemma direct_keys_matched key : key ∈ direct_keys -> key_matcher key = true.
Proof.
  unfold direct_keys. rewrite !elem_of_cons.
  intros H. repeat (destruct H as [->|H]; [by vm_compute|]). by apply elem_of_nil in H.
Qed.

Lemma dict_get_gather d key v id :
  dict_get key d = Some v -> key_matcher key = true -> id ∈ ids_of_value v ->
  id ∈ gather_ids_by_key (JObj d) key_matcher.
Proof.
  intros Hget Hm Hid. apply dict_get_elem in Hget. simpl.
  apply list_elem_of_In, in_flat_map. exists (key, v). split; [by apply list_elem_of_In|].
  simpl. rewrite Hm. apply in_or_app. left. by apply list_elem_of_In.
Qed.

Lemma direct_ids_gather d id :
  id ∈ direct_ids d -> id ∈ gather_ids_by_key (JObj d) key_matcher.
Proof.
  unfold direct_ids. rewrite list_elem_of_In, in_flat_map.
  intros (key & Hk & Hid). apply list_elem_of_In in Hk, Hid.
  unfold py_get in Hid. destruct (dict_get key d) as [v|] eqn:E.
  - eapply dict_get_gather; [exact E| |done]. by apply direct_keys_matched.
  - by apply elem_of_nil in Hid.
Qed.

(** X5: every candidate id of a space is found by the recursive key
    scan alone: the lookups of the direct keys, on the space and on its
    [data] mapping, add nothing to the set. *)
Theorem candidate_ids_scan space :
  candidate_ids space = list_to_set (gather_ids_by_key (JObj space) key_matcher).
Proof.
  unfold candidate_ids. apply set_eq. intros id.
  rewrite !elem_of_union, !elem_of_list_to_set. split; [|by right].
  intros [[H|H]|H]; [by apply direct_ids_gather| |done].
  unfold py_get in H. destruct (dict_get "data" space) as [[| | | | | |d]|] eqn:E;
    try by apply not_elem_of_empty in H.
  apply elem_of_list_to_set, direct_ids_gather in H.
  apply dict_get_elem in E. simpl.
  apply list_elem_of_In, in_flat_map. exists ("data", JObj d).
  split; [by apply list_elem_of_In|]. cbn [fst snd]. apply in_or_app. right.
  by apply list_elem_of_In.
Qed.

(** ** Counting *)

Lemma tree_folders_folder t c : tree_folders (Folder t c) = S (forest_folders c).
Proof.
  assert (forall l, (fix sum (l : list tree) : nat :=
                       match l with
                       | [] => 0%nat
                       | x :: l' => (tree_folders x + sum l')%nat
                       end) l = forest_folders l) as H.
  { induction l as [|x l IH]; simpl; [done|]. by rewrite IH. }
  simpl. by rewrite H.
Qed.

Lemma tree_tabs_folder t c : tree_tabs (Folder t c) = forest_tabs c.
Proof.
  assert (forall l, (fix sum (l : list tree) : nat :=
                       match l with
                       | [] => 0%nat
                       | x :: l' => (tree_tabs x + sum l')%nat
                       end) l = forest_tabs l) as H.
  { induction l as [|x l IH]; simpl; [done|]. by rewrite IH. }
  simpl. by rewrite H.
Qed.

Lemma tree_ind' (P : tree -> Prop) :
  (forall t u, P (Bookmark t u)) ->
  (forall t c, Forall P c -> P (Folder t c)) ->
  forall x, P x.
Proof.
  intros Hb Hf. fix IH 1. intros [t u|t c].
  - exact (Hb t u).
  - apply Hf. induction c as [|x c IHc]; constructor; [apply IH|apply IHc].
Qed.

Lemma count_walk_spec x : forall acc,
  count_walk x acc = ((acc.1 + tree_folders x)%nat, (acc.2 + tree_tabs x)%nat).
Proof.
  induction x as [t u|t c IH] using tree_ind'; intros acc.
  - simpl. f_equal; lia.
  - rewrite tree_folders_folder, tree_tabs_folder.
    cbn [count_walk].
    assert (forall a, fold_left (fun a child => count_walk child a) c a
                      = ((a.1 + forest_folders c)%nat, (a.2 + forest_tabs c)%nat)) as Hfold.
    { induction IH as [|x c Hx _ IHc]; intros a; simpl.
      - destruct a. simpl. f_equal; lia.
      - rewrite IHc, Hx. simpl. f_equal; lia. }
    rewrite Hfold. simpl. f_equal; lia.
Qed.

Lemma count_nodes_spec l : count_nodes l = (forest_folders l, forest_tabs l).
Proof.
  unfold count_nodes.
  assert (forall a, fold_left (fun a node => count_walk node a) l a
                    = ((a.1 + forest_folders l)%nat, (a.2 + forest_tabs l)%nat)) as Hfold.
  { induction l as [|x l IH]; intros a; simpl.
    - destruct a. simpl. f_equal; lia.
    - rewrite IH, count_walk_spec. simpl. f_equal; lia. }
  by rewrite Hfold.
Qed.

(** X6: [count_nodes] returns the number of Folder nodes and the number
    of Bookmark leaves of the forest, at every depth; the counts of a
    concatenation are the sums of the counts, and a Folder counts as
    one more than its children. *)
Theorem count_nodes_counts l1 l2 t c :
  count_nodes l1 = (forest_folders l1, forest_tabs l1) /\
  count_nodes (l1 ++ l2)
  = (((count_nodes l1).1 + (count_nodes l2).1)%nat,
     ((count_nodes l1).2 + (count_nodes l2).2)%nat) /\
  count_nodes [Folder t c] = (S (count_nodes c).1, (count_nodes c).2).
Proof.
  rewrite !count_nodes_spec. split; [done|]. split.
  - simpl. unfold forest_folders, forest_tabs. rewrite !foldr_app.
    f_equal.
    + induction l1 as [|x l1 IH]; simpl; [done|]. rewrite IH. lia.
    + induction l1 as [|x l1 IH]; simpl; [done|]. rewrite IH. lia.
  - unfold forest_folders at 1, forest_tabs at 1. cbn [foldr].
    rewrite tree_folders_folder, tree_tabs_folder. simpl. f_equal; lia.
Qed.

(** ** Raising *)

Lemma parent_known_cases n nodes :
  (unhashable_parent n = true /\ parent_known n nodes = Raise TypeError) \/
  (unhashable_parent n = false /\
   parent_known n nodes = Ret (bool_decide (is_Some (parent_of nodes n)))).
Proof.
  unfold unhashable_parent, parent_known, parent_of.
  destruct (parent_id n) as [|b|z|f|p|l|d]; simpl.
  - by right.
  - right. by destruct b.
  - right. by destruct (negb _).
  - right. by destruct f.
  - right. split; [by rewrite andb_false_r|].
    destruct (PyStr.nonempty p); simpl; [|done].
    destruct (dict_mem p nodes); done.
  - destruct l; [by right|by left].
  - destruct d; [by right|by left].
Qed.

Lemma build_children_map_outcome nodes l : forall cm0,
  if existsb unhashable_parent l
  then build_children_map nodes l cm0 = Raise TypeError
  else exists cm, build_children_map nodes l cm0 = Ret cm.
Proof.
  induction l as [|n l IH]; intros cm0; simpl; [by eauto|].
  destruct (parent_known_cases n nodes) as [[-> ->]|[-> ->]]; simpl; [done|].
  apply IH.
Qed.

Lemma collect_root_ids_outcome nodes l :
  if existsb unhashable_parent l
  then collect_root_ids nodes l = Raise TypeError
  else exists ids, collect_root_ids nodes l = Ret ids.
Proof.
  induction l as [|n l IH]; simpl; [by eauto|].
  destruct (parent_known_cases n nodes) as [[-> ->]|[-> ->]]; simpl; [done|].
  destruct (existsb unhashable_parent l).
  - by rewrite IH.
  - destruct IH as [ids ->]. simpl. eauto.
Qed.

Lemma existsb_perm {A} (f : A -> bool) l1 l2 : l1 ≡ₚ l2 -> existsb f l1 = existsb f l2.
Proof.
  induction 1 as [|x l1 l2 _ IH|x y l|l1 l2 l3 _ IH1 _ IH2]; simpl.
  - done.
  - by rewrite IH.
  - by destruct (f x), (f y).
  - by rewrite IH1.
Qed.

Section Outcome.
Variable set_iter : gset string -> list string.
Variable py_repr : json -> string.

Lemma parse_container_unfold container container_index include_unpinned :
  parse_container set_iter py_repr container container_index include_unpinned
  = (children_map ←
       build_children_map (nodes_of (items_of container))
         (dict_values (nodes_of (items_of container))) [];
     root_ids ←
       collect_root_ids (nodes_of (items_of container))
         (sorted_by order (dict_values (nodes_of (items_of container))));
     Ret (top_level (nodes_of (items_of container)) children_map root_ids container_index
            (included_spaces set_iter py_repr (nodes_of (items_of container)) children_map
               include_unpinned (spaces_of container)),
          length (spaces_of container),
          length (included_spaces set_iter py_repr (nodes_of (items_of container))
                    children_map include_unpinned (spaces_of container)))).
Proof.
  unfold parse_container, included_spaces, spaces_of, items_of, nodes_of.
  generalize (find_list_for_key (JObj container) "spaces"). intros spaces.
  generalize (build_nodes
                (enumerate match find_list_for_key (JObj container) "items" with
                           | Some l => l
                           | None => []
                           end) []).
  intros nodes.
  destruct (build_children_map _ _ _) as [cm| |]; cbn [mbind res_bind]; [|done..].
  destruct (collect_root_ids _ _) as [root_ids| |]; cbn [mbind res_bind]; [|done..].
  destruct spaces as [[|sp spaces]|].
  - by rewrite wrap_roots_spec.
  - rewrite space_loop_spec. cbn [mbind res_bind space_nodes used_ids included app].
    destruct (omap _ (enumerate (sp :: spaces))) as [|y ys'] eqn:Hys.
    + cbn [map]. by rewrite wrap_roots_spec.
    + cbn [map]. rewrite build_children_from_ids_expand.
      cbn [mbind res_bind top_level]. by rewrite (left_id_L ∅ (∪)).
  - by rewrite wrap_roots_spec.
Qed.

(** X7: [parse_container] raises [TypeError] exactly when a node of its
    table has a non-empty list or mapping as parent reference; in every
    other case it returns, and it raises nothing else. *)
Theorem parse_container_raises container container_index include_unpinned :
  (existsb unhashable_parent (dict_values (nodes_of (items_of container))) = true ->
   parse_container set_iter py_repr container container_index include_unpinned
   = Raise TypeError) /\
  (existsb unhashable_parent (dict_values (nodes_of (items_of container))) = false ->
   exists r, parse_container set_iter py_repr container container_index include_unpinned
             = Ret r).
Proof.
  rewrite parse_container_unfold.
  pose proof (build_children_map_outcome (nodes_of (items_of container))
                (dict_values (nodes_of (items_of container))) []) as Hcm.
  pose proof (collect_root_ids_outcome (nodes_of (items_of container))
                (sorted_by order (dict_values (nodes_of (items_of container))))) as Hroots.
  rewrite (existsb_perm _ _ _ (sorted_by_perm order _)) in Hroots.
  split; intros E; rewrite E in Hcm, Hroots.
  - by rewrite Hcm.
  - destruct Hcm as [cm ->]. destruct Hroots as [ids ->]. simpl. eauto.
Qed.

End Outcome.

Lemma parse_container_raises_witness :
  parse_container elements (fun _ => "")
    [("items", JArr [JObj [("id", JStr "a"); ("parentID", JArr [JStr "x"])]])] 0 false
  = Raise TypeError.
Proof.
  apply (parse_container_raises elements (fun _ => "")
           [("items", JArr [JObj [("id", JStr "a"); ("parentID", JArr [JStr "x"])]])] 0 false).
  reflexivity.
Defined.

(** ** The whole document *)

Lemma omap_length_le {A B} (f : A -> option B) l : (length (omap f l) <= length l)%nat.
Proof.
  induction l as [|x l IH]; simpl; [done|].
  destruct (f x); simpl; [by apply le_n_S|by apply le_S].
Qed.

Section Document.
Variable set_iter : gset string -> list string.
Variable py_repr : json -> string.

Lemma parse_container_outcome c i iu :
  (exists top d n, parse_container set_iter py_repr c i iu = Ret (top, d, n) /\ (n <= d)%nat) \/
  parse_container set_iter py_repr c i iu = Raise TypeError.
Proof.
  rewrite parse_container_unfold.
  pose proof (build_children_map_outcome (nodes_of (items_of c))
                (dict_values (nodes_of (items_of c))) []) as Hcm.
  pose proof (collect_root_ids_outcome (nodes_of (items_of c))
                (sorted_by order (dict_values (nodes_of (items_of c))))) as Hroots.
  destruct (existsb _ _); [right; by rewrite Hcm|].
  destruct (existsb _ _); [right; destruct Hcm as [cm ->]; simpl; by rewrite Hroots|].
  destruct Hcm as [cm ->]. destruct Hroots as [ids ->]. left. simpl.
  eexists _, _, _. split; [done|].
  unfold included_spaces. etrans; [apply omap_length_le|].
  unfold enumerate. by rewrite enumerate_from_length.
Qed.

Lemma container_step_outcome iu ac n st i c :
  (exists st', container_step set_iter py_repr iu ac n st i c = Ret st' /\
     ((st.2 <= st.1.2)%nat -> (st'.2 <= st'.1.2)%nat)) \/
  container_step set_iter py_repr iu ac n st i c = Raise TypeError.
Proof.
  destruct c as [| | | | | |c]; try (left; exists st; by split).
  destruct st as [[all dt] it]. simpl.
  destruct (parse_container_outcome c i iu) as [(top & d & k & -> & Hle)| ->]; [|by right].
  left. simpl. destruct top as [|x top].
  - eexists. split; [done|]. simpl. lia.
  - destruct (ac && _); eexists; (split; [done|]); simpl; lia.
Qed.

Lemma container_loop_outcome iu ac n sel : forall st,
  (exists st', container_loop set_iter py_repr iu ac n sel st = Ret st' /\
     ((st.2 <= st.1.2)%nat -> (st'.2 <= st'.1.2)%nat)) \/
  container_loop set_iter py_repr iu ac n sel st = Raise TypeError.
Proof.
  induction sel as [|[i c] sel IH]; intros st; simpl.
  - left. exists st. by split.
  - destruct (container_step_outcome iu ac n st i c) as [(st1 & -> & H1)| ->]; [|by right].
    simpl. destruct (IH st1) as [(st2 & -> & H2)| ->]; [|by right].
    left. exists st2. split; [done|]. auto.
Qed.

(** X8: on a loaded document that is not a mapping,
    [parse_arc_sidebar] raises [AttributeError]; on a mapping it either
    returns or raises [TypeError] (from a parent reference that is not
    hashable); it never fails in another way. *)
Theorem parse_arc_sidebar_outcome (doc : json) iu ac :
  match doc with
  | JObj _ =>
      (exists forest stats, parse_loaded set_iter py_repr doc iu ac = Ret (forest, stats)) \/
      parse_loaded set_iter py_repr doc iu ac = Raise TypeError
  | _ => parse_loaded set_iter py_repr doc iu ac = Raise AttributeError
  end.
Proof.
  destruct doc as [| | | | | |doc]; try done.
  unfold parse_loaded, parse_arc_sidebar.
  destruct (container_loop_outcome iu ac
              (length (select_containers (extract_containers doc) ac))
              (select_containers (extract_containers doc) ac) ([], 0%nat, 0%nat))
    as [([[all dt] it] & -> & _)| ->]; [|by right].
  left. simpl. destruct (count_nodes all). eauto.
Qed.

(** X9: the statistics returned with a forest are consistent: the
    folder and tab counts are those of the forest, the containers total
    is the length of the containers list, no more containers are
    selected than exist (at most one without [all_containers]), and no
    more spaces are included than detected. *)
Theorem stats_consistent doc iu ac forest stats :
  parse_arc_sidebar set_iter py_repr doc iu ac = Ret (forest, stats) ->
  folders stats = forest_folders forest /\
  tabs stats = forest_tabs forest /\
  containers_total stats = length (extract_containers doc) /\
  (containers_selected stats <= containers_total stats)%nat /\
  (ac = false -> (containers_selected stats <= 1)%nat) /\
  (spaces_included stats <= spaces_detected stats)%nat.
Proof.
  unfold parse_arc_sidebar. intros H.
  destruct (container_loop_outcome iu ac
              (length (select_containers (extract_containers doc) ac))
              (select_containers (extract_containers doc) ac) ([], 0%nat, 0%nat))
    as [([[all dt] it] & E & Hle)|E]; rewrite E in H; [|done].
  simpl in H. rewrite count_nodes_spec in H. injection H as <- <-. simpl.
  split; [done|]. split; [done|]. split; [done|].
  destruct (extract_containers doc) as [|c0 cs] eqn:Ec.
  { split; [by destruct ac|]. split; [intros ->; simpl; lia|]. apply Hle. simpl. lia. }
  split; [|split].
  - destruct ac.
    + unfold select_containers, enumerate. by rewrite enumerate_from_length.
    + destruct (select_one (c0 :: cs)) as (i & c & -> & _); [done|]. simpl. lia.
  - intros ->. by destruct (select_one (c0 :: cs)) as (i & c & -> & _).
  - apply Hle. simpl. lia.
Qed.

(** X10: without [all_containers], when the selected container is a
    mapping, the forest is that container's top level, not wrapped, and
    the statistics are its space counts and the counts of its forest. *)
Theorem single_container_unwrapped doc iu i c :
  select_containers (extract_containers doc) false = [(i, JObj c)] ->
  parse_arc_sidebar set_iter py_repr doc iu false
  = ('(top, detected, incl) ← parse_container set_iter py_repr c i iu;
     Ret (top, mkExportStats (length (extract_containers doc)) 1 detected incl
                 (forest_folders top) (forest_tabs top))).
Proof.
  intros Hsel. unfold parse_arc_sidebar. rewrite Hsel.
  cbn [container_loop container_step length].
  destruct (parse_container set_iter py_repr c i iu) as [[[top d] n]| |];
    cbn [mbind res_bind]; [|done..].
  destruct top as [|x top]; cbn [mbind res_bind andb app Nat.add];
    by rewrite count_nodes_spec.
Qed.

Lemma container_step_wrapped iu n st i c st' :
  (1 < n)%nat -> (i < n)%nat ->
  container_step set_iter py_repr iu true n st i c = Ret st' ->
  Forall (container_folder n) st.1.1 -> Forall (container_folder n) st'.1.1.
Proof.
  intros Hn Hi H Hst. destruct c; simpl in H; try by injection H as <-.
  destruct st as [[all dt] it]. inv_bind H. destruct a as [[cn dn] inc].
  destruct cn as [|x cn]; [by injection H as <-|].
  rewrite bool_decide_true in H by done. injection H as <-. simpl.
  apply Forall_app. split; [done|]. constructor; [|constructor].
  exists i, (x :: cn). done.
Qed.

Lemma container_loop_wrapped iu n sel : forall st st',
  (1 < n)%nat -> Forall (fun ic => (ic.1 < n)%nat) sel ->
  container_loop set_iter py_repr iu true n sel st = Ret st' ->
  Forall (container_folder n) st.1.1 -> Forall (container_folder n) st'.1.1.
Proof.
  induction sel as [|[i c] sel IH]; intros st st' Hn Hsel H Hst; simpl in H.
  - by injection H as <-.
  - inv_bind H. apply Forall_cons in Hsel as [Hi Hsel]. eapply IH; [done..|exact H|].
    by eapply container_step_wrapped.
Qed.

(** X11: with [all_containers] and more than one container, every
    top-level entry of the forest is a folder named after the 1-based
    index of a container, and none of these folders is empty. *)
Theorem all_containers_wrapped doc iu forest stats :
  (1 < length (extract_containers doc))%nat ->
  parse_arc_sidebar set_iter py_repr doc iu true = Ret (forest, stats) ->
  Forall (container_folder (length (extract_containers doc))) forest.
Proof.
  intros Hn H. unfold parse_arc_sidebar in H. inv_bind H. destruct a as [[all dt] it].
  destruct (count_nodes all). injection H as <- _.
  assert (select_containers (extract_containers doc) true
          = enumerate (extract_containers doc)) as Hsel.
  { by destruct (extract_containers doc). }
  rewrite Hsel in Ha. unfold enumerate in Ha. rewrite enumerate_from_length in Ha.
  eapply (container_loop_wrapped _ _ _ _ (all, dt, it)); [exact Hn| |exact Ha|by constructor].
  apply Forall_forall. intros [i c] Hic. apply enumerate_from_lookup in Hic as [_ Hl].
  apply lookup_lt_Some in Hl. simpl. lia.
Qed.

End Document.

Lemma stats_consistent_witness :
  folders (mkExportStats 1 1 0 0 3 2) = forest_folders synthetic_forest /\
  tabs (mkExportStats 1 1 0 0 3 2) = forest_tabs synthetic_forest /\
  containers_total (mkExportStats 1 1 0 0 3 2)
  = length (extract_containers synthetic_sidebar_data) /\
  (containers_selected (mkExportStats 1 1 0 0 3 2)
   <= containers_total (mkExportStats 1 1 0 0 3 2))%nat /\
  (false = false -> (containers_selected (mkExportStats 1 1 0 0 3 2) <= 1)%nat) /\
  (spaces_included (mkExportStats 1 1 0 0 3 2)
   <= spaces_detected (mkExportStats 1 1 0 0 3 2))%nat.
Proof.
  apply (stats_consistent elements (fun _ => "") synthetic_sidebar_data false false).
  vm_compute. reflexivity.
Defined.

Lemma single_container_unwrapped_witness :
  parse_arc_sidebar elements (fun _ => "") two_containers_doc false false
  = ('(top, detected, incl) ←
       parse_container elements (fun _ => "")
         [("items", JArr [folder_item "B"; tab_item "t" "https://b.example" "B"])] 1 false;
     Ret (top, mkExportStats (length (extract_containers two_containers_doc)) 1 detected incl
                 (forest_folders top) (forest_tabs top))).
Proof.
  apply (single_container_unwrapped elements (fun _ => "") two_containers_doc false 1
           [("items", JArr [folder_item "B"; tab_item "t" "https://b.example" "B"])]).
  reflexivity.
Defined.

Example two_containers_all :
  parse_arc_sidebar elements (fun _ => "") two_containers_doc false true
  = Ret ([Folder "Arc Export (Container 1)" [Folder "Arc Export (Container 1)" [Folder "A" []]];
          Folder "Arc Export (Container 2)"
            [Folder "Arc Export (Container 2)"
               [Folder "B" [Bookmark "t" "https://b.example"]]]],
         mkExportStats 2 2 0 0 6 1).
Proof. vm_compute. reflexivity. Qed.

Lemma all_containers_wrapped_witness :
  Forall (container_folder (length (extract_containers two_containers_doc)))
    [Folder "Arc Export (Container 1)" [Folder "Arc Export (Container 1)" [Folder "A" []]];
     Folder "Arc Export (Container 2)"
       [Folder "Arc Export (Container 2)"
          [Folder "B" [Bookmark "t" "https://b.example"]]]].
Proof.
  apply (all_containers_wrapped elements (fun _ => "") two_containers_doc false _
           (mkExportStats 2 2 0 0 6 1)).
  - vm_compute. lia.
  - vm_compute. reflexivity.
Defined.

(** ** The node table *)

Lemma item_node_facts i item n :
  item_node i item = Some n ->
  node_id n ≠ "" /\ order n = Z.of_nat i /\
  exists it, item = JObj it /\ py_get "id" it = JStr (node_id n).
Proof.
  unfold item_node. destruct item as [| | | | | |it]; try done.
  destruct (py_get "id" it) as [| | | |s| |] eqn:E; try done.
  destruct (PyStr.nonempty s) eqn:Hs; [|done].
  intros [= <-]. simpl. split; [by apply nonempty_true|]. split; [done|]. eauto.
Qed.

Lemma dict_get_set {V} id k (v : V) d :
  dict_get id (dict_set k v d) = if String.eqb id k then Some v else dict_get id d.
Proof.
  induction d as [|[k' v'] d IH]; simpl; [done|].
  destruct (String.eqb_spec k k') as [->|Hne]; simpl.
  - by destruct (String.eqb id k').
  - rewrite IH. destruct (String.eqb_spec id k') as [->|Hne'].
    + destruct (String.eqb_spec k' k) as [->|]; done.
    + done.
Qed.

Lemma dict_set_Forall {V} (R : string * V -> Prop) k v d :
  R (k, v) -> Forall R d -> Forall R (dict_set k v d).
Proof.
  intros Hk. induction 1 as [|[k' v'] d Hx Hd IH]; simpl.
  - by repeat constructor.
  - destruct (String.eqb_spec k k') as [->|Hne]; by constructor.
Qed.

Lemma build_nodes_Forall (R : string * ArcNode -> Prop) l : forall acc,
  Forall R acc ->
  (forall i item n, (i, item) ∈ l -> item_node i item = Some n -> R (node_id n, n)) ->
  Forall R (build_nodes l acc).
Proof.
  induction l as [|[i item] l IH]; intros acc Hacc Hl; simpl; [done|].
  destruct (item_node i item) as [n|] eqn:E.
  - apply IH.
    + apply dict_set_Forall; [|done]. eapply Hl; [apply list_elem_of_here|done].
    + intros j item' n' Hin. apply Hl. by apply list_elem_of_further.
  - apply IH; [done|]. intros j item' n' Hin. apply Hl. by apply list_elem_of_further.
Qed.

Lemma build_nodes_untouched id l : forall acc,
  (forall i item n, (i, item) ∈ l -> item_node i item = Some n -> node_id n ≠ id) ->
  dict_get id (build_nodes l acc) = dict_get id acc.
Proof.
  induction l as [|[i item] l IH]; intros acc Hl; simpl; [done|].
  assert (forall j item' n', (j, item') ∈ l -> item_node j item' = Some n' -> node_id n' ≠ id)
    as Hl'.
  { intros j item' n' Hin. apply Hl. by apply list_elem_of_further. }
  destruct (item_node i item) as [n|] eqn:E; rewrite IH by done; [|done].
  rewrite dict_get_set. destruct (String.eqb_spec id (node_id n)) as [->|]; [|done].
  by destruct (Hl i item n (list_elem_of_here _ _) E).
Qed.

Lemma build_nodes_last l : forall m acc i item n,
  l !! i = Some item ->
  item_node (m + i) item = Some n ->
  (forall j item' n', (i < j)%nat -> l !! j = Some item' ->
                      item_node (m + j) item' = Some n' -> node_id n' ≠ node_id n) ->
  dict_get (node_id n) (build_nodes (enumerate_from m l) acc) = Some n.
Proof.
  induction l as [|x l IH]; intros m acc i item n Hi Hn Hlater; [done|].
  destruct i as [|i]; simpl in Hi.
  - injection Hi as ->. rewrite Nat.add_0_r in Hn. simpl. rewrite Hn.
    rewrite build_nodes_untouched.
    + by rewrite dict_get_set, String.eqb_refl.
    + intros j item' n' Hin Hn'. apply enumerate_from_lookup in Hin as [Hle Hl].
      apply (Hlater (S (j - S m)) item' n'); [lia|done|].
      by replace (m + S (j - S m))%nat with j by lia.
  - simpl.
    assert (dict_get (node_id n) (build_nodes (enumerate_from (S m) l)
                                   match item_node m x with
                                   | Some node => dict_set (node_id node) node acc
                                   | None => acc
                                   end) = Some n) as H.
    { apply (IH (S m) _ i item n Hi).
      - by replace (S m + i)%nat with (m + S i)%nat by lia.
      - intros j item' n' Hj Hl Hn'. apply (Hlater (S j) item' n'); [lia|done|].
        by replace (m + S j)%nat with (S m + j)%nat by lia. }
    by destruct (item_node m x).
Qed.

Lemma nodes_of_made_from items :
  Forall (fun kv => node_id kv.2 = kv.1 /\ kv.1 ≠ "" /\ made_from items kv.2) (nodes_of items).
Proof.
  apply build_nodes_Forall; [constructor|].
  intros i item n Hin Hn. apply enumerate_lookup in Hin.
  destruct (item_node_facts _ _ _ Hn) as (Hne & Ho & _). simpl.
  split; [done|]. split; [done|]. by exists i, item.
Qed.

(** X12: the node table of an items list has one entry per id; every
    entry is stored under its own, non-empty id and was made from the
    item at the position its [order] gives, so two entries never share
    an [order]; and of several items with one id, the last one is the
    entry. *)
Theorem node_table_entries items :
  NoDup (dict_keys (nodes_of items)) /\
  (forall id n, dict_get id (nodes_of items) = Some n ->
                node_id n = id /\ id ≠ "" /\ made_from items n) /\
  (forall id1 n1 id2 n2,
      dict_get id1 (nodes_of items) = Some n1 -> dict_get id2 (nodes_of items) = Some n2 ->
      order n1 = order n2 -> id1 = id2) /\
  (forall i item n,
      items !! i = Some item -> item_node i item = Some n ->
      (forall j item' n', (i < j)%nat -> items !! j = Some item' ->
                          item_node j item' = Some n' -> node_id n' ≠ node_id n) ->
      dict_get (node_id n) (nodes_of items) = Some n).
Proof.
  pose proof (nodes_of_made_from items) as Hall. rewrite Forall_forall in Hall.
  split; [apply nodes_of_ok|]. split; [|split].
  - intros id n Hget. apply dict_get_elem in Hget. by apply Hall in Hget.
  - intros id1 n1 id2 n2 H1 H2 Ho.
    apply dict_get_elem, Hall in H1 as (E1 & _ & i1 & item1 & Hi1 & Hn1 & Ho1).
    apply dict_get_elem, Hall in H2 as (E2 & _ & i2 & item2 & Hi2 & Hn2 & Ho2).
    simpl in *. assert (i1 = i2) as -> by lia. congruence.
  - intros i item n Hi Hn Hlater. unfold nodes_of, enumerate.
    by apply (build_nodes_last items 0 [] i item n).
Qed.

Lemma node_table_entries_witness :
  dict_get (node_id (mkArcNode "a" JNull (Some "second") [] 1))
    (nodes_of [JObj [("id", JStr "a"); ("title", JStr "first")];
               JObj [("id", JStr "a"); ("title", JStr "second")]])
  = Some (mkArcNode "a" JNull (Some "second") [] 1).
Proof.
  apply (node_table_entries
           [JObj [("id", JStr "a"); ("title", JStr "first")];
            JObj [("id", JStr "a"); ("title", JStr "second")]]
         ) with (i := 1%nat) (item := JObj [("id", JStr "a"); ("title", JStr "second")]).
  - reflexivity.
  - reflexivity.
  - intros j item' n' Hj Hl. destruct j as [|[|j]]; [lia|lia|done].
Defined.

(** ** The children index and the root ids *)

Lemma child_ids_of_append p q (c : string) cm :
  child_ids_of (dict_append q c cm) p
  = child_ids_of cm p ++ (if String.eqb p q then [c] else []).
Proof.
  unfold child_ids_of. induction cm as [|[k l] cm IH]; simpl.
  - by destruct (String.eqb p q).
  - destruct (String.eqb_spec q k) as [->|Hne]; simpl.
    + destruct (String.eqb p k); [done|]. by rewrite app_nil_r.
    + destruct (String.eqb_spec p k) as [->|Hne'].
      * destruct (String.eqb_spec k q) as [->|]; [done|]. by rewrite app_nil_r.
      * apply IH.
Qed.

Lemma parent_known_parent n nodes known :
  parent_known n nodes = Ret known ->
  known = bool_decide (is_Some (parent_of nodes n)).
Proof.
  destruct (parent_known_cases n nodes) as [[_ ->]|[_ ->]]; [done|]. by intros [= <-].
Qed.

Lemma parent_of_str nodes n p : parent_of nodes n = Some p -> parent_id n = JStr p.
Proof.
  unfold parent_of. destruct (parent_id n); try done.
  destruct (_ && _); [|done]. by intros [= ->].
Qed.

Lemma build_children_map_kids nodes l : forall cm0 cm p,
  build_children_map nodes l cm0 = Ret cm ->
  child_ids_of cm p
  = child_ids_of cm0 p ++ map node_id (filter (fun n => parent_of nodes n = Some p) l).
Proof.
  induction l as [|n l IH]; intros cm0 cm p H; simpl in H.
  - injection H as <-. by rewrite app_nil_r.
  - inv_bind H. apply parent_known_parent in Ha. rewrite (IH _ _ _ H). subst a.
    destruct (parent_of nodes n) as [q|] eqn:Hq.
    + rewrite bool_decide_true by eauto. rewrite (parent_of_str _ _ _ Hq).
      rewrite child_ids_of_append, <- app_assoc. f_equal.
      destruct (String.eqb_spec p q) as [->|Hne].
      * by rewrite filter_cons_True.
      * rewrite filter_cons_False; [done|]. congruence.
    + rewrite bool_decide_false by apply is_Some_None.
      by rewrite filter_cons_False by congruence.
Qed.

Lemma collect_root_ids_orphans nodes l ids :
  collect_root_ids nodes l = Ret ids ->
  ids = map node_id (filter (fun n => parent_of nodes n = None) l).
Proof.
  revert ids. induction l as [|n l IH]; intros ids H; simpl in H.
  - by injection H as <-.
  - inv_bind H. inv_bind H. injection H as <-. apply parent_known_parent in Ha.
    rewrite (IH _ Ha0). subst a. destruct (parent_of nodes n) as [q|] eqn:Hq.
    + rewrite bool_decide_true by eauto. by rewrite filter_cons_False by congruence.
    + rewrite bool_decide_false by apply is_Some_None. by rewrite filter_cons_True.
Qed.

(** X13: when the children index is built, the children of an id are
    the ids of the nodes that name it as parent (a non-empty string
    that is an id of the table), in the order of the table; an id
    that no node names has no children. *)
Theorem children_index_kids nodes cm p :
  build_children_map nodes (dict_values nodes) [] = Ret cm ->
  child_ids_of cm p = kids nodes p /\
  (forall c, c ∈ child_ids_of cm p ->
             exists n, n ∈ dict_values nodes /\ node_id n = c /\ parent_id n = JStr p /\
                       p ≠ "" /\ dict_mem p nodes = true).
Proof.
  intros H. rewrite (build_children_map_kids _ _ _ _ p H). split; [done|].
  simpl. intros c Hc. apply list_elem_of_fmap in Hc as (n & -> & Hn).
  apply list_elem_of_filter in Hn as [Hp Hn]. exists n. split; [done|]. split; [done|].
  pose proof (parent_of_str _ _ _ Hp) as Hs. split; [done|].
  unfold parent_of in Hp. rewrite Hs in Hp.
  destruct (PyStr.nonempty p) eqn:E1; [|done]. destruct (dict_mem p nodes); [|done].
  split; [by apply nonempty_true|done].
Qed.

Lemma children_index_kids_witness :
  child_ids_of cycle_children "A" = kids cycle_nodes "A" /\
  (forall c, c ∈ child_ids_of cycle_children "A" ->
             exists n, n ∈ dict_values cycle_nodes /\ node_id n = c /\
                       parent_id n = JStr "A" /\ "A" ≠ "" /\ dict_mem "A" cycle_nodes = true).
Proof.
  apply (children_index_kids cycle_nodes cycle_children "A"). reflexivity.
Defined.

Lemma sorted_by_order_ids nodes l :
  table_ok nodes -> l ⊆ dict_values nodes ->
  StronglySorted (fun a b => (order a <= order b)%Z) l ->
  StronglySorted (by_order nodes) (map node_id l).
Proof.
  intros Hok Hsub Hs.
  assert (forall n, n ∈ l -> order_of nodes (node_id n) = order n) as Hord.
  { intros n Hn. apply Hsub in Hn. unfold order_of.
    apply list_elem_of_fmap in Hn as ([k x] & -> & Hin). simpl.
    destruct Hok as [Hnd Hall]. rewrite Forall_forall in Hall.
    pose proof (Hall _ Hin) as Hk. simpl in Hk. rewrite Hk.
    by rewrite (elem_dict_get _ _ _ Hnd Hin). }
  induction Hs as [|n l Hs IH Hn]; simpl; [constructor|].
  constructor.
  - apply IH; [set_solver|]. intros m Hm. apply Hord. by apply list_elem_of_further.
  - apply Forall_fmap. eapply Forall_impl.
    + apply Forall_forall. intros m Hm. exact (conj Hm (proj1 (Forall_forall _ _) Hn m Hm)).
    + simpl. intros m [Hm Hle]. unfold by_order.
      rewrite (Hord n (list_elem_of_here _ _)), (Hord m (list_elem_of_further _ _ _ Hm)).
      done.
Qed.

Lemma StronglySorted_filter {A} (R : A -> A -> Prop) (P : A -> Prop)
    `{forall x, Decision (P x)} l :
  StronglySorted R l -> StronglySorted R (filter P l).
Proof.
  induction 1 as [|x l Hs IH Hx]; [constructor|].
  rewrite filter_cons. case_decide; [|done].
  constructor; [done|]. apply Forall_forall.
  intros y [_ Hy]%list_elem_of_filter. by apply (proj1 (Forall_forall _ _) Hx).
Qed.

Lemma table_values_inj nodes n m :
  table_ok nodes -> n ∈ dict_values nodes -> m ∈ dict_values nodes ->
  node_id n = node_id m -> n = m.
Proof.
  intros Hok Hn Hm E. apply list_elem_of_fmap in Hm as ([k x] & -> & Hin). simpl in *.
  pose proof Hok as [Hnd Hall]. rewrite Forall_forall in Hall.
  pose proof (Hall _ Hin) as Hk. simpl in Hk.
  apply (table_node_unique nodes); [done..|].
  rewrite E, Hk. by apply elem_dict_get.
Qed.

Lemma table_values_NoDup nodes : table_ok nodes -> NoDup (dict_values nodes).
Proof.
  intros Hok. unfold dict_values. apply NoDup_fmap_2_strong.
  - intros [k1 n1] [k2 n2] H1 H2 E. simpl in E. subst n2.
    destruct Hok as [_ Hall]. rewrite Forall_forall in Hall.
    pose proof (Hall _ H1) as E1. pose proof (Hall _ H2) as E2. simpl in *. congruence.
  - destruct Hok as [Hnd _]. by apply NoDup_fmap_1 in Hnd.
Qed.

Lemma table_get_value nodes id n :
  table_ok nodes -> dict_get id nodes = Some n -> n ∈ dict_values nodes /\ node_id n = id.
Proof.
  intros [_ Hall] Hget. apply dict_get_elem in Hget. split.
  - apply list_elem_of_fmap. by exists (id, n).
  - rewrite Forall_forall in Hall. by apply Hall in Hget.
Qed.

Lemma orphans_spec nodes :
  table_ok nodes ->
  NoDup (orphans nodes) /\ StronglySorted (by_order nodes) (orphans nodes).
Proof.
  intros Hok. unfold orphans. split.
  - apply NoDup_fmap_2_strong.
    + intros n m Hn Hm. apply list_elem_of_filter in Hn as [_ Hn], Hm as [_ Hm].
      rewrite sorted_by_perm in Hn, Hm. by apply (table_values_inj nodes).
    + apply NoDup_filter. rewrite sorted_by_perm. by apply table_values_NoDup.
  - apply sorted_by_order_ids; [done| |].
    + intros n [_ Hn]%list_elem_of_filter. by rewrite sorted_by_perm in Hn.
    + apply StronglySorted_filter, sorted_by_sorted.
Qed.

Lemma table_partition nodes cm id n :
  table_ok nodes ->
  (forall q, child_ids_of cm q = kids nodes q) ->
  dict_get id nodes = Some n ->
  match parent_of nodes n with
  | None => id ∈ orphans nodes /\ forall q, id ∉ child_ids_of cm q
  | Some p => id ∉ orphans nodes /\ forall q, id ∈ child_ids_of cm q <-> q = p
  end.
Proof.
  intros Hok Hcm Hget. destruct (table_get_value _ _ _ Hok Hget) as [Hn <-].
  assert (forall q, node_id n ∈ kids nodes q <-> parent_of nodes n = Some q) as Hkids.
  { intros q. unfold kids. rewrite list_elem_of_fmap. split.
    - intros (m & E & [Hp Hm]%list_elem_of_filter).
      by rewrite (table_values_inj nodes n m Hok Hn Hm E).
    - intros Hp. exists n. split; [done|]. by apply list_elem_of_filter. }
  assert (node_id n ∈ orphans nodes <-> parent_of nodes n = None) as Horph.
  { unfold orphans. rewrite list_elem_of_fmap. split.
    - intros (m & E & [Hp Hm]%list_elem_of_filter). rewrite sorted_by_perm in Hm.
      by rewrite (table_values_inj nodes n m Hok Hn Hm E).
    - intros Hp. exists n. split; [done|]. apply list_elem_of_filter.
      split; [done|]. by rewrite sorted_by_perm. }
  destruct (parent_of nodes n) as [p|] eqn:Hp.
  - split; [rewrite Horph; congruence|]. intros q. rewrite Hcm, Hkids.
    split; [by intros [= ->]|by intros ->].
  - split; [by apply Horph|]. intros q. rewrite Hcm, Hkids. congruence.
Qed.

(** X14: when the root ids of the table of an items list are
    collected, they are the ids of the nodes without a parent in the
    table, each once, in non-decreasing [order]; with the children
    index they split the table: an id is a root or a child of exactly
    its parent, never both. *)
Theorem roots_and_children_partition items cm root_ids :
  build_children_map (nodes_of items) (dict_values (nodes_of items)) [] = Ret cm ->
  collect_root_ids (nodes_of items) (sorted_by order (dict_values (nodes_of items)))
  = Ret root_ids ->
  root_ids = orphans (nodes_of items) /\
  NoDup root_ids /\
  StronglySorted (by_order (nodes_of items)) root_ids /\
  (forall id n, dict_get id (nodes_of items) = Some n ->
     match parent_of (nodes_of items) n with
     | None => id ∈ root_ids /\ forall q, id ∉ child_ids_of cm q
     | Some p => id ∉ root_ids /\ forall q, id ∈ child_ids_of cm q <-> q = p
     end).
Proof.
  intros Hcm Hroots. apply collect_root_ids_orphans in Hroots. subst root_ids.
  pose proof (nodes_of_ok items) as Hok.
  destruct (orphans_spec _ Hok) as [Hnd Hs].
  split; [done|]. split; [done|]. split; [done|].
  intros id n Hget. apply table_partition; [done| |done].
  intros q. by rewrite (build_children_map_kids _ _ _ _ q Hcm).
Qed.

Lemma roots_and_children_partition_witness :
  ["space_root"] = orphans (nodes_of (items_of
     [("items", JArr [folder_item "space_root"; tab_item "t1" "https://a.example" "space_root"])])) /\
  NoDup ["space_root"] /\
  StronglySorted (by_order (nodes_of (items_of
     [("items", JArr [folder_item "space_root"; tab_item "t1" "https://a.example" "space_root"])])))
    ["space_root"] /\
  (forall id n, dict_get id (nodes_of (items_of
     [("items", JArr [folder_item "space_root"; tab_item "t1" "https://a.example" "space_root"])]))
                = Some n ->
     match parent_of (nodes_of (items_of
       [("items", JArr [folder_item "space_root"; tab_item "t1" "https://a.example" "space_root"])])) n with
     | None => id ∈ ["space_root"] /\
               forall q, id ∉ child_ids_of [("space_root", ["t1"])] q
     | Some p => id ∉ ["space_root"] /\
                 forall q, id ∈ child_ids_of [("space_root", ["t1"])] q <-> q = p
     end).
Proof.
  apply (roots_and_children_partition
           (items_of [("items", JArr [folder_item "space_root";
                                      tab_item "t1" "https://a.example" "space_root"])])
           [("space_root", ["t1"])] ["space_root"]); reflexivity.
Defined.

(** ** What the recursive assembly returns *)

Lemma build_tree_noise nodes cm id node V fuel :
  dict_get id nodes = Some node -> id ∉ V -> is_noise cm id node ->
  build_tree (S fuel) nodes cm id V = Ret (None, V).
Proof.
  intros Hnode HV (Htab & Hf & Hc). simpl.
  rewrite decide_False by done. rewrite Hnode, Htab. fold (child_ids_of cm id).
  rewrite Hf, Hc. simpl. by rewrite set_remove_added.
Qed.

Lemma build_tree_tab nodes cm id node b V fuel :
  dict_get id nodes = Some node -> id ∉ V -> get_tab_info node = Some b ->
  build_tree (S fuel) nodes cm id V = Ret (Some b, V).
Proof.
  intros Hnode HV Htab. simpl.
  rewrite decide_False by done. rewrite Hnode, Htab. by rewrite set_remove_added.
Qed.

(** X15: for an id that is not on the ancestor path, [build_tree]
    returns nothing exactly when the id is not in the table or its node
    is noise (no tab, no folder key, no child); a folder-like node
    without children is kept, as an empty Folder. *)
Theorem build_tree_absent nodes cm id V fuel :
  depth_bound nodes <= fuel ->
  id ∉ V ->
  (build_tree (S fuel) nodes cm id V = Ret (None, V)
   <-> dict_get id nodes = None \/
       exists node, dict_get id nodes = Some node /\ is_noise cm id node) /\
  (forall node, dict_get id nodes = Some node -> get_tab_info node = None ->
                is_folder_like node = true -> child_ids_of cm id = [] ->
                build_tree (S fuel) nodes cm id V
                = Ret (Some (Folder (get_node_title node "Untitled Folder") []), V)).
Proof.
  intros Hfuel HV. split.
  - split.
    + intros H. destruct (dict_get id nodes) as [node|] eqn:Hnode; [|by left].
      right. exists node. split; [done|].
      destruct (get_tab_info node) as [b|] eqn:Htab.
      { by rewrite (build_tree_tab _ _ _ _ _ _ _ Hnode HV Htab) in H. }
      destruct (is_folder_like node) eqn:Hf.
      { rewrite (build_tree_folder _ _ _ _ _ _ Hfuel Hnode HV Htab) in H by (by left).
        done. }
      destruct (child_ids_of cm id) as [|c cs] eqn:Hc; [done|].
      rewrite (build_tree_folder _ _ _ _ _ _ Hfuel Hnode HV Htab) in H; [done|].
      right. by rewrite Hc.
    + intros [Hnone|(node & Hnode & Hnoise)].
      * simpl. rewrite decide_False by done. by rewrite Hnone.
      * by apply (build_tree_noise _ _ _ node).
  - intros node Hnode Htab Hf Hc.
    rewrite (build_tree_folder _ _ _ _ _ _ Hfuel Hnode HV Htab) by (by left).
    by rewrite Hc.
Qed.

Lemma build_tree_absent_witness :
  (build_tree 4 cycle_nodes cycle_children "zzz" ∅ = Ret (None, ∅)
   <-> dict_get "zzz" cycle_nodes = None \/
       exists node, dict_get "zzz" cycle_nodes = Some node /\
                    is_noise cycle_children "zzz" node) /\
  (forall node, dict_get "zzz" cycle_nodes = Some node -> get_tab_info node = None ->
                is_folder_like node = true -> child_ids_of cycle_children "zzz" = [] ->
                build_tree 4 cycle_nodes cycle_children "zzz" ∅
                = Ret (Some (Folder (get_node_title node "Untitled Folder") []), ∅)).
Proof.
  apply (build_tree_absent cycle_nodes cycle_children "zzz" ∅ 3).
  - vm_compute. lia.
  - set_solver.
Defined.

(** ** Folder titles *)

Lemma folder_titles_ok_folder t c :
  folder_titles_ok (Folder t c) <-> t ≠ "" /\ PyStr.trimmed t /\ Forall folder_titles_ok c.
Proof.
  simpl. do 2 apply and_iff_compat_l. induction c as [|x c IH].
  - split; [constructor|done].
  - by rewrite Forall_cons, IH.
Qed.

Lemma nonblank_str_ok c s : nonblank_str c = Some s -> s ≠ "" /\ PyStr.trimmed s.
Proof.
  unfold nonblank_str. destruct c; try done.
  destruct (PyStr.nonempty (PyStr.strip s0)) eqn:E; [|done].
  intros [= <-]. split; [by apply nonempty_true|apply strip_trimmed].
Qed.

Lemma get_node_title_ok node default :
  default ≠ "" -> PyStr.trimmed default ->
  get_node_title node default ≠ "" /\ PyStr.trimmed (get_node_title node default).
Proof.
  intros Hd Ht. unfold get_node_title.
  destruct (first_some nonblank_str _) as [s|] eqn:E; [|done].
  apply first_some_elem in E as (c & _ & Hc). by apply nonblank_str_ok in Hc.
Qed.

Lemma untitled_ok : "Untitled Folder" ≠ "" /\ PyStr.trimmed "Untitled Folder".
Proof. split; [done|]. split; intros c [= <-]; reflexivity. Qed.

Lemma add_child_titles child st :
  (forall t, child = Some t -> folder_titles_ok t) ->
  Forall folder_titles_ok st.1 -> Forall folder_titles_ok (add_child child st).1.
Proof.
  intros Hc Hst. destruct child as [[t u|t c]|]; simpl; [| |done].
  - case_decide; [done|]. simpl. apply Forall_app. split; [done|]. by repeat constructor.
  - apply Forall_app. split; [done|]. constructor; [|constructor]. by apply Hc.
Qed.

Lemma child_loop_titles rec ids :
  (forall id V r V', rec id V = Ret (r, V') -> forall t, r = Some t -> folder_titles_ok t) ->
  forall st V st' V', child_loop rec ids st V = Ret (st', V') ->
  Forall folder_titles_ok st.1 -> Forall folder_titles_ok st'.1.
Proof.
  intros Hrec. induction ids as [|id ids IH]; intros st V st' V' H Hst; simpl in H.
  - by injection H as <- <-.
  - inv_bind H. destruct a as [child V1]. eapply IH; [exact H|].
    apply add_child_titles; [|done]. eauto.
Qed.

Lemma build_tree_titles nodes cm fuel : forall id V r V',
  build_tree fuel nodes cm id V = Ret (r, V') -> forall t, r = Some t -> folder_titles_ok t.
Proof.
  induction fuel as [|fuel IH]; intros id V r V' H t ->; [done|]. simpl in H.
  case_decide; [done|].
  destruct (dict_get id nodes) as [node|]; [|done].
  destruct (get_tab_info node) as [b|] eqn:Htab.
  { inv_bind H. injection H as <- <-.
    by destruct (get_tab_info_bookmark _ _ Htab) as (t' & u' & ->). }
  destruct (negb (is_folder_like node) && _).
  { inv_bind H. done. }
  inv_bind H. destruct a as [[c seen] V1]. inv_bind H. injection H as <- <-.
  apply folder_titles_ok_folder.
  destruct (get_node_title_ok node "Untitled Folder") as [H1 H2]; [apply untitled_ok..|].
  split; [done|]. split; [done|].
  eapply (child_loop_titles _ _ IH _ _ (c, seen)); [exact Ha|simpl; constructor].
Qed.

(** X16: every Folder that [build_tree] makes, at any depth, has a
    title that is not empty and has no whitespace at either end: the
    stripped title of the node or of its data, or [Untitled Folder]. *)
Theorem build_tree_folder_titles nodes cm fuel id V r V' t :
  build_tree fuel nodes cm id V = Ret (r, V') -> r = Some t -> folder_titles_ok t.
Proof. intros H Hr. by eapply build_tree_titles. Qed.

Lemma build_tree_folder_titles_witness :
  folder_titles_ok (Folder "A" [Folder "B" []]).
Proof.
  apply (build_tree_folder_titles cycle_nodes cycle_children 3 "A" ∅
           (Some (Folder "A" [Folder "B" []])) ∅); reflexivity.
Defined.

(** ** The order of set iteration does not show *)

Lemma sorted_perm_unique {A} (key : A -> Z) (l1 : list A) : forall l2,
  StronglySorted (fun a b => (key a <= key b)%Z) l1 ->
  StronglySorted (fun a b => (key a <= key b)%Z) l2 ->
  l1 ≡ₚ l2 ->
  (forall x y, x ∈ l1 -> y ∈ l1 -> key x = key y -> x = y) ->
  l1 = l2.
Proof.
  induction l1 as [|x l1 IH]; intros l2 H1 H2 Hp Hinj.
  - by apply Permutation_nil_l in Hp.
  - destruct l2 as [|y l2]; [by apply Permutation_nil_r in Hp|].
    apply StronglySorted_inv in H1 as [H1 Hx], H2 as [H2 Hy].
    rewrite Forall_forall in Hx, Hy.
    assert (x = y) as ->.
    { assert (x ∈ y :: l2) as Hxin by (rewrite <- Hp; apply list_elem_of_here).
      assert (y ∈ x :: l1) as Hyin by (rewrite Hp; apply list_elem_of_here).
      apply elem_of_cons in Hxin as [->|Hxin]; [done|].
      apply elem_of_cons in Hyin as [->|Hyin]; [done|].
      apply Hinj; [apply list_elem_of_here|by rewrite Hp; apply list_elem_of_here|].
      specialize (Hx _ Hyin). specialize (Hy _ Hxin). lia. }
    f_equal. apply Permutation_cons_inv in Hp. apply IH; [done..|].
    intros a b Ha Hb. apply Hinj; by apply list_elem_of_further.
Qed.

Lemma nodes_of_order_inj items id1 id2 :
  dict_mem id1 (nodes_of items) = true -> dict_mem id2 (nodes_of items) = true ->
  order_of (nodes_of items) id1 = order_of (nodes_of items) id2 -> id1 = id2.
Proof.
  unfold dict_mem, order_of.
  destruct (dict_get id1 (nodes_of items)) as [n1|] eqn:H1; [|done].
  destruct (dict_get id2 (nodes_of items)) as [n2|] eqn:H2; [|done].
  intros _ _ Ho.
  pose proof (nodes_of_made_from items) as Hall. rewrite Forall_forall in Hall.
  apply dict_get_elem, Hall in H1 as (E1 & _ & i1 & item1 & Hi1 & Hn1 & Ho1).
  apply dict_get_elem, Hall in H2 as (E2 & _ & i2 & item2 & Hi2 & Hn2 & Ho2).
  simpl in *. assert (i1 = i2) as -> by lia. congruence.
Qed.

Section Iteration.
Variables (iter1 iter2 : gset string -> list string).
Variable py_repr : json -> string.
Hypothesis iter1_perm : forall s, iter1 s ≡ₚ elements s.
Hypothesis iter2_perm : forall s, iter2 s ≡ₚ elements s.

Lemma extract_space_roots_iter items sp :
  extract_space_roots iter1 sp (nodes_of items) = extract_space_roots iter2 sp (nodes_of items).
Proof.
  unfold extract_space_roots. apply (sorted_perm_unique (order_of (nodes_of items))).
  - apply sorted_by_sorted.
  - apply sorted_by_sorted.
  - rewrite !sorted_by_perm. by rewrite iter1_perm, iter2_perm.
  - intros x y Hx Hy. rewrite sorted_by_perm in Hx, Hy.
    apply list_elem_of_filter in Hx as [Hx _], Hy as [Hy _].
    by apply nodes_of_order_inj.
Qed.

Lemma parse_container_iter c i iu :
  parse_container iter1 py_repr c i iu = parse_container iter2 py_repr c i iu.
Proof.
  rewrite !parse_container_unfold.
  destruct (build_children_map _ _ _) as [cm| |]; [|done..]. simpl.
  destruct (collect_root_ids _ _) as [roots| |]; [|done..]. simpl.
  assert (included_spaces iter1 py_repr (nodes_of (items_of c)) cm iu (spaces_of c)
          = included_spaces iter2 py_repr (nodes_of (items_of c)) cm iu (spaces_of c)) as ->.
  { unfold included_spaces. apply list_omap_ext. apply Forall2_same_length_lookup_2; [done|].
    intros k x y Hx Hy. rewrite Hx in Hy. injection Hy as <-.
    unfold space_yield. destruct x.2; try done. by rewrite extract_space_roots_iter. }
  done.
Qed.

(** X17: the result does not depend on the order in which Python
    iterates the set of candidate ids: two iteration orders give the
    same result for every document, since the ids are sorted by an
    [order] that no two nodes of a table share. *)
Theorem parse_arc_sidebar_iteration doc iu ac :
  parse_arc_sidebar iter1 py_repr doc iu ac = parse_arc_sidebar iter2 py_repr doc iu ac.
Proof.
  unfold parse_arc_sidebar.
  assert (forall n sel st,
             container_loop iter1 py_repr iu ac n sel st
             = container_loop iter2 py_repr iu ac n sel st) as ->; [|done].
  intros n sel. induction sel as [|[i c] sel IH]; intros st; simpl; [done|].
  assert (container_step iter1 py_repr iu ac n st i c
          = container_step iter2 py_repr iu ac n st i c) as ->.
  { destruct c; try done. simpl. destruct st as [[all dt] it].
    by rewrite parse_container_iter. }
  destruct (container_step iter2 py_repr iu ac n st i c); simpl; [apply IH|done..].
Qed.

End Iteration.

Lemma parse_arc_sidebar_iteration_witness :
  parse_arc_sidebar elements (fun _ => "") [("containers", JArr [JObj spaced_container])]
    false false
  = parse_arc_sidebar (fun s => reverse (elements s)) (fun _ => "")
      [("containers", JArr [JObj spaced_container])] false false.
Proof.
  apply (parse_arc_sidebar_iteration elements (fun s => reverse (elements s)) (fun _ => "")).
  - intros s. reflexivity.
  - intros s. apply reverse_Permutation.
Defined.

(** ** Escaping *)

Lemma app_cons_str a s t : String a s +:+ t = String a (s +:+ t).
Proof. reflexivity. Qed.

Lemma app_assoc_str s1 s2 s3 : (s1 +:+ s2) +:+ s3 = s1 +:+ (s2 +:+ s3).
Proof. induction s1 as [|a s1 IH]; [done|]. by rewrite !app_cons_str, IH. Qed.

Lemma replace_char_app c r s1 s2 :
  Html.replace_char c r (s1 +:+ s2) = Html.replace_char c r s1 +:+ Html.replace_char c r s2.
Proof.
  induction s1 as [|a s1 IH]; [done|]. rewrite app_cons_str. cbn [Html.replace_char].
  destruct (Ascii.eqb a c); rewrite IH; [by rewrite app_assoc_str|done].
Qed.

Lemma escape_app s1 s2 b : Html.escape (s1 +:+ s2) b = Html.escape s1 b +:+ Html.escape s2 b.
Proof. unfold Html.escape. destruct b; by rewrite !replace_char_app. Qed.

Lemma escape_one a : Html.escape (String a "") true = Html.escape_char a.
Proof.
  unfold Html.escape, Html.escape_char, Html.quote_char.
  destruct (Ascii.eqb_spec a "&") as [->|H1]; [done|].
  destruct (Ascii.eqb_spec a "<") as [->|H2]; [done|].
  destruct (Ascii.eqb_spec a ">") as [->|H3]; [done|].
  destruct (Ascii.eqb_spec a "034") as [->|H4]; [done|].
  destruct (Ascii.eqb_spec a "'") as [->|H5]; [done|].
  cbn. rewrite (proj2 (Ascii.eqb_neq _ _) H1). cbn.
  rewrite (proj2 (Ascii.eqb_neq _ _) H2). cbn.
  rewrite (proj2 (Ascii.eqb_neq _ _) H3). cbn.
  rewrite (proj2 (Ascii.eqb_neq _ _) H4). cbn.
  by rewrite (proj2 (Ascii.eqb_neq _ _) H5).
Qed.

Lemma escape_cons a s : Html.escape (String a s) true = Html.escape_char a +:+ Html.escape s true.
Proof. change (String a s) with (String a "" +:+ s). by rewrite escape_app, escape_one. Qed.

Lemma escape_char_cases a :
  (Html.escape_char a = String a "" /\ a ≠ "&"%char /\ Html.is_markup a = false) \/
  (a = "&"%char /\ Html.escape_char a = "&amp;") \/
  (a = "<"%char /\ Html.escape_char a = "&lt;") \/
  (a = ">"%char /\ Html.escape_char a = "&gt;") \/
  (a = Html.quote_char /\ Html.escape_char a = "&quot;") \/
  (a = "'"%char /\ Html.escape_char a = "&#x27;").
Proof.
  unfold Html.escape_char, Html.is_markup, Html.quote_char.
  destruct (Ascii.eqb_spec a "&") as [->|H1]; [by right; left|].
  destruct (Ascii.eqb_spec a "<") as [->|H2]; [by right; right; left|].
  destruct (Ascii.eqb_spec a ">") as [->|H3]; [by right; right; right; left|].
  destruct (Ascii.eqb_spec a "034") as [->|H4]; [by right; right; right; right; left|].
  destruct (Ascii.eqb_spec a "'") as [->|H5]; [by right; right; right; right; right|].
  by left.
Qed.

Lemma unescape_escape_char a t :
  Html.unescape_from 0 (Html.escape_char a +:+ t) = String a (Html.unescape_from 0 t).
Proof.
  destruct (escape_char_cases a)
    as [(-> & Hne & _)|[[-> ->]|[[-> ->]|[[-> ->]|[[-> ->]|[-> ->]]]]]]; try done.
  change (String a "" +:+ t) with (String a t). cbn [Html.unescape_from].
  by rewrite (proj2 (Ascii.eqb_neq _ _) Hne).
Qed.

Lemma has_markup_app s1 s2 :
  Html.has_markup (s1 +:+ s2) = Html.has_markup s1 || Html.has_markup s2.
Proof.
  induction s1 as [|a s1 IH]; [done|]. rewrite app_cons_str. cbn [Html.has_markup].
  rewrite IH. by rewrite orb_assoc.
Qed.

(** X18: escaping works as one pass that replaces each of the five
    characters by its entity and keeps every other character, so an
    entity is never escaped twice; the result holds no [<], [>] or
    quote character; escaping distributes over concatenation; and
    reading the five entities back returns the string. *)
Theorem escape_one_pass s1 s2 a :
  Html.escape (String a s1) true = Html.escape_char a +:+ Html.escape s1 true /\
  Html.escape (s1 +:+ s2) true = Html.escape s1 true +:+ Html.escape s2 true /\
  Html.has_markup (Html.escape s1 true) = false /\
  Html.unescape (Html.escape s1 true) = s1.
Proof.
  split; [apply escape_cons|]. split; [apply escape_app|]. split.
  - induction s1 as [|c s IH]; [done|]. rewrite escape_cons, has_markup_app, IH.
    rewrite orb_false_r.
    by destruct (escape_char_cases c)
      as [(-> & _ & Hm)|[[-> ->]|[[-> ->]|[[-> ->]|[[-> ->]|[-> ->]]]]]]; cbn; rewrite ?Hm.
  - unfold Html.unescape. induction s1 as [|c s IH]; [done|].
    by rewrite escape_cons, unescape_escape_char, IH.
Qed.

(** ** Rendered lines *)

Lemma render_node_length x : forall depth,
  length (Html.render_node depth x) = (3 * tree_folders x + tree_tabs x)%nat.
Proof.
  induction x as [t u|t c IH] using tree_ind'; intros depth; [done|].
  rewrite tree_folders_folder, tree_tabs_folder. cbn [Html.render_node].
  rewrite !length_app. cbn [length].
  assert (length (flat_map (Html.render_node (S depth)) c)
          = (3 * forest_folders c + forest_tabs c)%nat) as ->; [|lia].
  induction IH as [|x c Hx _ IHc]; [done|].
  cbn [flat_map]. rewrite length_app, Hx, IHc. unfold forest_folders, forest_tabs. simpl. lia.
Qed.

(** X19: the renderer writes three lines for every Folder and one line
    for every Bookmark of the forest, whatever the depth, after five
    header lines and before one closing line. *)
Theorem rendered_line_count nodes depth :
  length (Html.render_nodes nodes depth)
  = (3 * (count_nodes nodes).1 + (count_nodes nodes).2)%nat /\
  length (Html.document_lines nodes)
  = (6 + 3 * (count_nodes nodes).1 + (count_nodes nodes).2)%nat.
Proof.
  rewrite count_nodes_spec. simpl.
  assert (forall d, length (Html.render_nodes nodes d)
                    = (3 * forest_folders nodes + forest_tabs nodes)%nat) as H.
  { intros d. unfold Html.render_nodes. induction nodes as [|x l IH]; [done|].
    cbn [flat_map]. rewrite length_app, render_node_length, IH.
    unfold forest_folders, forest_tabs. simpl. lia. }
  split; [apply H|].
  unfold Html.document_lines. rewrite !length_app, H. simpl. lia.
Qed.

Example synthetic_rendering :
  Html.document_lines synthetic_forest
  = Html.header_lines ++
    ["    <DT><H3>Arc Export (Container 1)</H3>";
     "    <DL><p>";
     "        <DT><H3>Space One</H3>";
     "        <DL><p>";
     "            <DT><H3>Reading</H3>";
     "            <DL><p>";
     "                <DT><A HREF=" +:+ Html.quote +:+ "https://example.com" +:+ Html.quote
       +:+ ">Example</A>";
     "                <DT><A HREF=" +:+ Html.quote +:+ "https://example.org" +:+ Html.quote
       +:+ ">Example Org</A>";
     "            </DL><p>";
     "        </DL><p>";
     "    </DL><p>";
     "</DL><p>"].
Proof. vm_compute. reflexivity. Qed.
